(** * water_flow_daq_realTimePlot.py: the acquisition pipeline of [RealTimePlot]

    A shallow embedding of the serial reader ([__get_data]), of the CSV log
    ([__write_to_csv]) and of the sliding display window ([__update]) of
    class [RealTimePlot], followed by the properties proved about them.

    Conventions.
    - Python [int] is [Z]; a [bytes]/[bytearray] is a [list byte].
    - A value unpacked with format ['f'] is the binary32 number denoted by
      the four bytes, kept as a [spec_float] (Python widens it to a double,
      which is exact).
    - An exception is a value of [exn]; code that can raise returns the
      state reached at the raise together with the exception. *)

From Stdlib Require Import String.
From Stdlib Require Import ZArith QArith Qpower List Bool Lia SpecFloat.
From Stdlib Require Import Strings.Byte.
Import ListNotations.
Local Open Scope Z_scope.

(** ** Python values and exceptions *)

Inductive exn : Type :=
| IndexError
| ZeroDivisionError
| OverflowError
| StructError.

Inductive pyval : Type :=
| PyInt (n : Z)
| PyFloat (f : spec_float).

(** [a // b] on Python integers: floor division, raising on a zero divisor. *)
Definition floordiv (a b : Z) : option Z :=
  if b =? 0 then None else Some (a / b).

(** [a / b] with an integer [b] other than zero raises [OverflowError]
    ("integer division result too large for a float") when [a] is an integer
    and the quotient, rounded to a double, does not fit: its magnitude is
    at least [2^1024 - 2^970], half-way between the largest double and
    [2^1024].  A float [a] divided by 1000 never raises. *)
Definition true_divide_overflows (a : pyval) (b : Z) : bool :=
  match a with
  | PyInt n => (2 ^ 1024 - 2 ^ 970) * Z.abs b <=? Z.abs n
  | PyFloat _ => false
  end.

(** [l[a:b]] for [0 <= a <= b]. *)
Definition slice {A : Type} (a b : nat) (l : list A) : list A :=
  firstn (b - a) (skipn a l).

(** ** The [struct] module

    [struct.unpack] with a format that has no byte-order prefix uses the
    byte order of the host ([sys.byteorder]) and the sizes of the C types,
    four bytes for both ['I'] and ['f']; it raises [struct.error] when the
    buffer is not exactly as long as the format. *)
Module Struct.

Inductive byteorder : Type := little | big.

Definition byte_val (b : byte) : Z := Z.of_N (Byte.to_N b).

(** Most significant byte first: each byte is shifted in below the
    accumulator. *)
Definition from_bytes_big (bs : list byte) : Z :=
  fold_left (fun acc b => Z.lor (Z.shiftl acc 8) (byte_val b)) bs 0.

Definition from_bytes (order : byteorder) (bs : list byte) : Z :=
  match order with
  | big => from_bytes_big bs
  | little => from_bytes_big (rev bs)
  end.

(** IEEE-754 binary32: bit 31 is the sign, bits 30..23 the biased
    exponent, bits 22..0 the fraction. *)
Definition binary32_of_bits (w : Z) : spec_float :=
  let sign := Z.testbit w 31 in
  let e := Z.land (Z.shiftr w 23) 255 in
  let m := Z.land w (Z.ones 23) in
  if e =? 0 then
    match m with
    | Zpos p => S754_finite sign p (-149)
    | _ => S754_zero sign
    end
  else if e =? 255 then
    if m =? 0 then S754_infinity sign else S754_nan
  else
    match Z.lor m (Z.shiftl 1 23) with
    | Zpos p => S754_finite sign p (e - 150)
    | _ => S754_nan
    end.

(** [struct.unpack('I', bs)[0]] *)
Definition unpack_I (native : byteorder) (bs : list byte) : option Z :=
  if (length bs =? 4)%nat then Some (from_bytes native bs) else None.

(** [struct.unpack('f', bs)[0]] *)
Definition unpack_f (native : byteorder) (bs : list byte) : option spec_float :=
  if (length bs =? 4)%nat then Some (binary32_of_bits (from_bytes native bs))
  else None.

End Struct.

(** ** The serial port

    [serial.Serial(port, baud_rate)] leaves [timeout=None]: [read(n)] waits
    until [n] bytes have arrived.  The port is modelled by the bytes that
    arrive on it and have not been read yet.  [readinto(b)] is pyserial's
    [data = self.read(len(b)); n = len(data); b[:n] = data]; it yields [None]
    when the read cannot complete with the bytes that arrive.  Failures of
    the device itself are outside the model. *)
Module Serial.

Definition in_waiting (rx : list byte) : Z := Z.of_nat (length rx).

Definition read (size : nat) (rx : list byte) : option (list byte * list byte) :=
  if (length rx <? size)%nat then None
  else Some (firstn size rx, skipn size rx).

Definition readinto (b : list byte) (rx : list byte)
  : option (list byte * list byte) :=
  match read (length b) rx with
  | None => None
  | Some (data, rx') => Some (data ++ skipn (length data) b, rx')
  end.

End Serial.

(** ** class [RealTimePlot]

    The host supplies what the source leaves to the platform and to NumPy:
    the byte order used by [struct], the element type of the display arrays
    ([float64]), the conversion [np.append] applies to an appended value
    and the double that the true division [current_time / 1000] yields when
    it does not raise. *)
Section RealTimePlot.

Variable native : Struct.byteorder.
Context {float64 : Type}.
Variable np_float64 : pyval -> float64.
Variable truediv : pyval -> Z -> float64.

(** A cell handed to [csv.writer(file).writerow]. *)
Inductive cell : Type :=
| Text (s : string)
| Num (v : pyval).

Definition row : Type := list cell.

(** The tuple carried by the signal [data_sent]: a time and the values. *)
Definition message : Type := (pyval * list pyval)%type.

(** Attributes set by [__init__] and never assigned again. *)
Record RealTimePlot : Type := mkRealTimePlot {
  _update_rate : Z;
  _sensor_rate : Z;
  _time_from_serial : bool;
  _num_of_data : nat;
  _max_size : Z;
  _write_to_file : bool
}.

(** What the reader thread owns: the local [count] of [__get_data],
    [self._time], [self._data_packet], the bytes still to come on
    [self._ser], the rows of the file at [self._file_path] ([None]: no
    such file) and the tuples emitted on [data_sent], oldest first. *)
Record Acquisition : Type := mkAcquisition {
  count : Z;
  _time : Z;
  _data_packet : list byte;
  _ser : list byte;
  csv_file : option (list row);
  data_sent : list message
}.

(** What the slot [__update] owns. *)
Record Display : Type := mkDisplay {
  _datas_x : list (list float64);
  _datas_y : list (list float64)
}.

(** [[np.array([])] * n] *)
Definition empty_arrays (n : nat) : list (list float64) := repeat [] n.

(** [__init__].  Of the parameters, [port], [baud_rate], [window_title],
    [file_name] and [file_directory_name] only name the serial device, the
    window and the file; [rx] stands for the bytes the opened port
    delivers.  [data_set[0]] raises [IndexError] on an empty list. *)
Definition __init__ (data_set : list string) (rx : list byte)
    (update_rate sensor_rate max_size : Z) (write_to_file : bool)
  : option (RealTimePlot * Acquisition * Display) :=
  match data_set with
  | [] => None
  | first :: rest =>
    let time_from_serial := String.eqb first "time (ms)" in
    let data_set := if time_from_serial then rest else data_set in
    let num_of_data := length data_set in
    Some ({| _update_rate := update_rate;
             _sensor_rate := sensor_rate;
             _time_from_serial := time_from_serial;
             _num_of_data := num_of_data;
             _max_size := max_size;
             _write_to_file := write_to_file |},
          {| count := 0;
             _time := 0;
             _data_packet := repeat x00%byte 24;
             _ser := rx;
             csv_file :=
               if write_to_file
               then Some [map Text ("time"%string :: data_set)]
               else None;
             data_sent := [] |},
          {| _datas_x := empty_arrays num_of_data;
             _datas_y := empty_arrays num_of_data |})
  end.

(** [__update]: the slot connected to [data_sent].  The first
    comprehension assigns [self._datas_y].  The second evaluates
    [current_time / 1000] once for each x array: when there is an x array
    and the quotient is too large for a float, it raises [OverflowError]
    with [self._datas_y] already assigned and [self._datas_x] not yet.
    Otherwise [self._datas_x] is assigned before [self._datas_y[0]] is
    evaluated, so an [IndexError] there leaves the appended arrays. *)
Definition __update (self : RealTimePlot) (d : Display) (dat : message)
  : Display * option exn :=
  let '(current_time, values) := dat in
  match values with
  | [] => (d, None)
  | _ :: _ =>
    let datas_y :=
      map (fun '(data_y, value) => data_y ++ [np_float64 value])
          (combine (_datas_y d) values) in
    if match _datas_x d with
       | [] => false
       | _ :: _ => true_divide_overflows current_time 1000
       end
    then ({| _datas_x := _datas_x d; _datas_y := datas_y |}, Some OverflowError)
    else
      let datas_x :=
        map (fun data_x => data_x ++ [truediv current_time 1000])
            (_datas_x d) in
      match datas_y with
      | [] => ({| _datas_x := datas_x; _datas_y := datas_y |}, Some IndexError)
      | data_y0 :: _ =>
        if _max_size self <? Z.of_nat (length data_y0)
        then ({| _datas_x := map (@tl float64) datas_x;
                 _datas_y := map (@tl float64) datas_y |}, None)
        else ({| _datas_x := datas_x; _datas_y := datas_y |}, None)
      end
  end.

(** The six [struct.unpack] lines of [__get_data] and the list they fill. *)
Definition raw_data (data_packet : list byte) : option (list pyval) :=
  match Struct.unpack_I native (slice 0 4 data_packet),
        Struct.unpack_f native (slice 4 8 data_packet),
        Struct.unpack_f native (slice 8 12 data_packet),
        Struct.unpack_f native (slice 12 16 data_packet),
        Struct.unpack_f native (slice 16 20 data_packet),
        Struct.unpack_f native (slice 20 24 data_packet) with
  | Some timeStamp, Some press1Bar, Some press2Bar,
    Some fm_gps, Some temp1C, Some temp2C =>
    Some [PyInt timeStamp; PyFloat press1Bar; PyFloat press2Bar;
          PyFloat fm_gps; PyFloat temp1C; PyFloat temp2C]
  | _, _, _, _, _, _ => None
  end.

(** [__write_to_csv]: [open(self._file_path, "a")] creates the file when
    it is missing, then one row is written. *)
Definition __write_to_csv (file : option (list row)) (r : list pyval)
  : option (list row) :=
  Some (match file with Some rows => rows | None => [] end ++ [map Num r]).

(** The [if self._time_from_serial: ... else: ...] of [__get_data]: the
    tuple [data] and the value of [self._time] after it.  [raw] always has
    the six entries of [raw_data]. *)
Definition data (self : RealTimePlot) (time : Z) (raw : list pyval)
  : message * Z :=
  if _time_from_serial self
  then ((hd (PyInt 0) raw, tl raw), time)
  else let time := time + _update_rate self in
       ((PyInt time, raw), time).

Inductive status : Type :=
| Running
| Blocked
| Raised (e : exn).

(** One turn of [while True] in [__get_data].  [Blocked]: [readinto] waits
    for bytes that do not arrive.  The tuple [(None, [])] assigned at the
    top of the turn is overwritten before any [emit] and is left out. *)
Definition loop_body (self : RealTimePlot) (st : Acquisition)
  : status * Acquisition :=
  if 0 <? Serial.in_waiting (_ser st) then
    let count := count st + 1 in
    match Serial.readinto (_data_packet st) (_ser st) with
    | None =>
      (Blocked, mkAcquisition count (_time st) (_data_packet st) (_ser st)
                              (csv_file st) (data_sent st))
    | Some (data_packet, ser) =>
      match raw_data data_packet with
      | None =>
        (Raised StructError,
         mkAcquisition count (_time st) data_packet ser
                       (csv_file st) (data_sent st))
      | Some raw =>
        let '(dat, time) := data self (_time st) raw in
      let file :=
          if _write_to_file self
          then __write_to_csv (csv_file st) raw
          else csv_file st in
        match floordiv (_update_rate self) (_sensor_rate self) with
        | None =>
          (Raised ZeroDivisionError,
           mkAcquisition count time data_packet ser file (data_sent st))
        | Some k =>
          if count =? k
          then (Running,
                mkAcquisition 0 time data_packet ser file
                              (data_sent st ++ [dat]))
          else (Running,
                mkAcquisition count time data_packet ser file (data_sent st))
        end
      end
    end
  else (Running, st).

Fixpoint while_True (fuel : nat) (self : RealTimePlot) (st : Acquisition)
  : status * Acquisition :=
  match fuel with
  | O => (Running, st)
  | S fuel' =>
    match loop_body self st with
    | (Running, st') => while_True fuel' self st'
    | halted => halted
    end
  end.

(** [__get_data]: [count = 0], then the loop, observed after [fuel] turns. *)
Definition __get_data (fuel : nat) (self : RealTimePlot) (st : Acquisition)
  : status * Acquisition :=
  while_True fuel self
    (mkAcquisition 0 (_time st) (_data_packet st) (_ser st)
                   (csv_file st) (data_sent st)).

(** The queued connection delivers every emitted tuple to [__update], in
    emission order; an exception in the slot does not undo the assignments
    made before it. *)
Definition deliver (self : RealTimePlot) (d : Display) (sent : list message)
  : Display :=
  fold_left (fun d dat => fst (__update self d dat)) sent d.

End RealTimePlot.

Arguments Display : clear implicits.


(** ** Reference notions used in the statements *)

(** The wire reading of a field: byte [j] of the field weighs [256^j]. *)
Fixpoint le_uint (bs : list byte) : Z :=
  match bs with
  | [] => 0
  | b :: rest => Struct.byte_val b + 256 * le_uint rest
  end.

(** The reading of a field in the byte order of the host: on a big-endian
    host the last byte weighs [256^0]. *)
Definition host_uint (order : Struct.byteorder) (bs : list byte) : Z :=
  match order with
  | Struct.little => le_uint bs
  | Struct.big => le_uint (rev bs)
  end.

(** What an IEEE-754 datum denotes: a signed rational, an infinity or a
    NaN. *)
Inductive ieee754 : Type :=
| Number (negative : bool) (q : Q)
| Infinity (negative : bool)
| NaN.

(** IEEE 754, binary32 interchange format.  The 32-bit word [w] has the
    sign [S = w / 2^31], the biased exponent [E = (w / 2^23) mod 2^8] and
    the trailing significand [T = w mod 2^23].  It denotes a NaN when
    [E = 255] and [T <> 0], an infinity when [E = 255] and [T = 0],
    [(-1)^S * 2^(E - 127) * (1 + 2^-23 * T)] when [1 <= E <= 254] and
    [(-1)^S * 2^-126 * (2^-23 * T)] when [E = 0]. *)
Definition ieee754_binary32 (w : Z) : ieee754 :=
  let S := (w / 2 ^ 31) mod 2 in
  let E := (w / 2 ^ 23) mod 2 ^ 8 in
  let T := w mod 2 ^ 23 in
  let sign := if S =? 1 then (- (1))%Q else 1%Q in
  if E =? 255 then
    if T =? 0 then Infinity (S =? 1) else NaN
  else if E =? 0 then
    Number (S =? 1) (sign * Qpower 2 (-126) * (Qpower 2 (-23) * inject_Z T))%Q
  else
    Number (S =? 1)
           (sign * Qpower 2 (E - 127) * (1 + Qpower 2 (-23) * inject_Z T))%Q.

(** What a [spec_float] denotes: [m * 2^e], signed. *)
Definition float_value (f : spec_float) : ieee754 :=
  match f with
  | S754_zero s => Number s 0
  | S754_infinity s => Infinity s
  | S754_nan => NaN
  | S754_finite s m e =>
    Number s ((if s then - (1) else 1) * inject_Z (Zpos m) * Qpower 2 e)%Q
  end.

(** The same datum: the same sign and equal rationals, or the same
    infinity, or two NaNs. *)
Definition same_value (a b : ieee754) : Prop :=
  match a, b with
  | Number s q, Number s' q' => s = s' /\ (q == q')%Q
  | Infinity s, Infinity s' => s = s'
  | NaN, NaN => True
  | _, _ => False
  end.

(** The time of a tuple is within the float range: [current_time / 1000]
    does not raise. *)
Definition in_float_range (m : message) : Prop :=
  true_divide_overflows (fst m) 1000 = false.

(** The list [raw_data] fills when the buffer holds the packet [pkt]. *)
Definition decoded (native : Struct.byteorder) (pkt : list byte) : list pyval :=
  [PyInt (Struct.from_bytes native (slice 0 4 pkt));
   PyFloat (Struct.binary32_of_bits (Struct.from_bytes native (slice 4 8 pkt)));
   PyFloat (Struct.binary32_of_bits (Struct.from_bytes native (slice 8 12 pkt)));
   PyFloat (Struct.binary32_of_bits (Struct.from_bytes native (slice 12 16 pkt)));
   PyFloat (Struct.binary32_of_bits (Struct.from_bytes native (slice 16 20 pkt)));
   PyFloat (Struct.binary32_of_bits (Struct.from_bytes native (slice 20 24 pkt)))].

(** A full packet. *)
Definition full (pkt : list byte) : Prop := length pkt = 24%nat.

(** The tuples [data] of successive samples; [time] is [self._time] before
    the first of them. *)
Fixpoint datas (self : RealTimePlot) (time : Z) (raws : list (list pyval))
  : list message :=
  match raws with
  | [] => []
  | raw :: rest =>
    let '(dat, time') := data self time raw in
    dat :: datas self time' rest
  end.

(** [self._time] after [n] samples. *)
Definition clock (self : RealTimePlot) (time : Z) (n : nat) : Z :=
  if _time_from_serial self then time
  else time + Z.of_nat n * _update_rate self.

(** The counter of [__get_data] taken alone: from the value [c], what is
    emitted out of [xs] and the value of the counter afterwards. *)
Fixpoint gate {A : Type} (k c : Z) (xs : list A) : list A * Z :=
  match xs with
  | [] => ([], c)
  | x :: rest =>
    if c + 1 =? k
    then let '(out, c') := gate k 0 rest in (x :: out, c')
    else gate k (c + 1) rest
  end.

(** Down-sampling as the specification words it: of the samples numbered
    [i], [i + 1], ... keep those whose number is a multiple of [k]. *)
Fixpoint every_kth_from {A : Type} (k i : Z) (xs : list A) : list A :=
  match xs with
  | [] => []
  | x :: rest =>
    if i mod k =? 0
    then x :: every_kth_from k (i + 1) rest
    else every_kth_from k (i + 1) rest
  end.

Definition every_kth {A : Type} (k : Z) (xs : list A) : list A :=
  every_kth_from k 1 xs.

(** The log after the rows of [raws] went through the guarded call of
    [__write_to_csv]. *)
Definition logged (self : RealTimePlot) (file : option (list row))
    (raws : list (list pyval)) : option (list row) :=
  if _write_to_file self then fold_left __write_to_csv raws file else file.

(** The last [n] elements of [l], all of [l] when it has fewer. *)
Definition lastn {A : Type} (n : nat) (l : list A) : list A :=
  skipn (length l - n) l.

(** The x series and the y series of channel [i] that a sequence of
    delivered tuples asks to plot, oldest first. *)
Definition series_x {float64 : Type} (truediv : pyval -> Z -> float64)
    (pushes : list message) : list float64 :=
  map (fun m => truediv (fst m) 1000) pushes.

Definition series_y {float64 : Type} (np_float64 : pyval -> float64)
    (i : nat) (pushes : list message) : list float64 :=
  map (fun m => np_float64 (nth i (snd m) (PyInt 0))) pushes.

(** All arrays of the display have one length. *)
Definition aligned {float64 : Type} (d : Display float64) : Prop :=
  exists n : nat,
    Forall (fun a => length a = n) (_datas_x d)
    /\ Forall (fun a => length a = n) (_datas_y d).

(** The display [__init__] builds for [n] series. *)
Definition empty_display {float64 : Type} (n : nat) : Display float64 :=
  mkDisplay (empty_arrays n) (empty_arrays n).

(** The rows of a file, none when the file does not exist. *)
Definition rows_of (file : option (list row)) : list row :=
  match file with Some rows => rows | None => [] end.

(** [xs] is [ys] with some elements left out: same order, nothing twice. *)
Inductive subseq {A : Type} : list A -> list A -> Prop :=
| subseq_nil : subseq [] []
| subseq_skip (y : A) (xs ys : list A) : subseq xs ys -> subseq xs (y :: ys)
| subseq_keep (x : A) (xs ys : list A) : subseq xs ys -> subseq (x :: xs) (x :: ys).

(** ** Inputs of the examples *)

(** [datas] of the [__main__] block. *)
Definition channel_names : list string :=
  ["time (ms)"; "PT1 (barg)"; "PT2 (barg)"; "FM (g/s)"; "TC1 (degC)";
   "TC2 (degC)"]%string.

(** The packet of timestamp 1000 and channels 1.23, -4.56, 0.0, 100.0 and
    25.5, as a little-endian instrument sends it. *)
Definition sample_packet : list byte :=
  [xe8; x03; x00; x00;  xa4; x70; x9d; x3f;  x85; xeb; x91; xc0;
   x00; x00; x00; x00;  x00; x00; xc8; x42;  x00; x00; xcc; x41]%byte.

(** What [sample_packet] decodes to. *)
Definition sample_values : list pyval :=
  [PyInt 1000;
   PyFloat (S754_finite false 10317988 (-23));
   PyFloat (S754_finite true 9563013 (-21));
   PyFloat (S754_zero false);
   PyFloat (S754_finite false 13107200 (-17));
   PyFloat (S754_finite false 13369344 (-19))].

(** The object and the reader state [__init__] builds from
    [channel_names] (the marker is dropped, five series remain), and the
    object it builds from the five names without the marker. *)
Definition main_self (update_rate sensor_rate : Z) : RealTimePlot :=
  mkRealTimePlot update_rate sensor_rate true 5 250 true.

Definition host_self (update_rate sensor_rate : Z) : RealTimePlot :=
  mkRealTimePlot update_rate sensor_rate false 5 250 true.

Definition main_state (rx : list byte) : Acquisition :=
  mkAcquisition 0 0 (repeat x00%byte 24) rx
                (Some [map Text ("time"%string :: tl channel_names)]) [].

(** The reader state [__init__] builds from ["time"] and the five channel
    names: no marker, six series, a header of seven cells. *)
Definition main_state_of_six (rx : list byte) : Acquisition :=
  mkAcquisition 0 0 (repeat x00%byte 24) rx
                (Some [map Text ("time" :: "time" :: tl channel_names)%string]) [].

(** ** Byte strings *)

Lemma byte_val_range (b : byte) : 0 <= Struct.byte_val b < 256.
Proof.
  unfold Struct.byte_val.
  pose proof (Byte.to_N_bounded b) as Hb.
  lia.
Qed.

Lemma shift_in_byte (x v : Z) :
  0 <= x -> 0 <= v < 256 -> Z.lor (Z.shiftl x 8) v = 256 * x + v.
Proof.
  intros Hx Hv.
  rewrite Z.shiftl_mul_pow2 by lia.
  change (2 ^ 8) with 256.
  rewrite <- Z.lxor_lor, <- Z.add_nocarry_lxor; try lia.
  all: apply Z.bits_inj'; intros n Hn;
    rewrite Z.land_spec, Z.bits_0;
    destruct (Z.ltb_spec n 8) as [Hlt | Hge].
  all: try (replace (x * 256) with (x * 2 ^ 8) by reflexivity;
            rewrite Z.mul_pow2_bits_low by lia; reflexivity).
  all: assert (Hv0 : Z.testbit v n = false)
         by (destruct (Z.eq_dec v 0) as [-> | Hnz];
             [ apply Z.bits_0
             | apply Z.bits_above_log2; [lia |];
               apply Z.log2_lt_pow2; [lia |];
               apply Z.lt_le_trans with (2 ^ 8); [exact (proj2 Hv) |];
               apply Z.pow_le_mono_r; lia ]);
       rewrite Hv0; apply andb_false_r.
Qed.

Lemma le_uint_nonneg (bs : list byte) : 0 <= le_uint bs.
Proof.
  induction bs as [| b rest IH]; cbn [le_uint]; [lia |].
  pose proof (byte_val_range b). lia.
Qed.

Lemma le_uint_bound (bs : list byte) :
  0 <= le_uint bs < 256 ^ Z.of_nat (length bs).
Proof.
  induction bs as [| b rest IH].
  - simpl. lia.
  - cbn [le_uint length]. rewrite Nat2Z.inj_succ, Z.pow_succ_r by lia.
    pose proof (byte_val_range b). lia.
Qed.

(** On a little-endian host [struct] reads a field as its wire value. *)
Lemma from_bytes_little (bs : list byte) :
  Struct.from_bytes Struct.little bs = le_uint bs.
Proof.
  unfold Struct.from_bytes, Struct.from_bytes_big.
  induction bs as [| b rest IH]; [reflexivity |].
  cbn [rev le_uint]. rewrite fold_left_app. cbn [fold_left].
  rewrite IH, shift_in_byte.
  - lia.
  - apply le_uint_nonneg.
  - apply byte_val_range.
Qed.

Lemma length_slice {A : Type} (a b : nat) (l : list A) :
  (b <= length l)%nat -> length (slice a b l) = (b - a)%nat.
Proof.
  intros Hb. unfold slice.
  rewrite length_firstn, length_skipn. lia.
Qed.

Lemma raw_data_full (native : Struct.byteorder) (pkt : list byte) :
  full pkt -> raw_data native pkt = Some (decoded native pkt).
Proof.
  unfold full. intros Hlen.
  unfold raw_data, Struct.unpack_I, Struct.unpack_f.
  rewrite !length_slice by lia.
  reflexivity.
Qed.

Lemma readinto_full (buf pkt rest : list byte) :
  full buf -> full pkt ->
  Serial.readinto buf (pkt ++ rest) = Some (pkt, rest).
Proof.
  unfold full. intros Hbuf Hpkt.
  unfold Serial.readinto, Serial.read.
  rewrite Hbuf.
  replace (length (pkt ++ rest) <? 24)%nat with false
    by (symmetry; apply Nat.ltb_ge; rewrite length_app; lia).
  rewrite <- Hpkt at 1 2 3.
  rewrite firstn_app, Nat.sub_diag, firstn_all, firstn_O, app_nil_r.
  rewrite skipn_app, Nat.sub_diag, skipn_all, skipn_O.
  rewrite Hpkt, <- Hbuf, skipn_all. cbn [app].
  rewrite app_nil_r. reflexivity.
Qed.

Lemma readinto_short (buf rx : list byte) :
  full buf -> (length rx < 24)%nat -> Serial.readinto buf rx = None.
Proof.
  unfold full. intros Hbuf Hrx.
  unfold Serial.readinto, Serial.read. rewrite Hbuf.
  replace (length rx <? 24)%nat with true
    by (symmetry; apply Nat.ltb_lt; exact Hrx).
  reflexivity.
Qed.

(** ** One turn of the loop *)

Lemma in_waiting_pos (rx : list byte) :
  (0 < length rx)%nat -> (0 <? Serial.in_waiting rx) = true.
Proof.
  intros H. unfold Serial.in_waiting. apply Z.ltb_lt. lia.
Qed.

(** A full packet is pending and the rates divide: the turn reads it, logs
    it and passes the gate. *)
Lemma loop_body_packet native self st pkt rest k :
  full (_data_packet st) -> full pkt -> _ser st = pkt ++ rest ->
  floordiv (_update_rate self) (_sensor_rate self) = Some k ->
  loop_body native self st =
  (Running,
   mkAcquisition
     (if count st + 1 =? k then 0 else count st + 1)
     (snd (data self (_time st) (decoded native pkt)))
     pkt rest
     (logged self (csv_file st) [decoded native pkt])
     (if count st + 1 =? k
      then data_sent st ++ [fst (data self (_time st) (decoded native pkt))]
      else data_sent st)).
Proof.
  intros Hbuf Hpkt Hser Hk.
  unfold loop_body. rewrite Hser.
  rewrite in_waiting_pos by (rewrite length_app; unfold full in Hpkt; lia).
  rewrite (readinto_full _ _ _ Hbuf Hpkt), (raw_data_full _ _ Hpkt), Hk.
  unfold logged. cbn [fold_left].
  destruct (data self (_time st) (decoded native pkt)) as [dat time].
  cbn [fst snd].
  destruct (count st + 1 =? k), (_write_to_file self); reflexivity.
Qed.

(** A full packet is pending and [sensor_rate] is zero: the row is written,
    then [//] raises. *)
Lemma loop_body_zero_division native self st pkt rest :
  full (_data_packet st) -> full pkt -> _ser st = pkt ++ rest ->
  floordiv (_update_rate self) (_sensor_rate self) = None ->
  loop_body native self st =
  (Raised ZeroDivisionError,
   mkAcquisition
     (count st + 1)
     (snd (data self (_time st) (decoded native pkt)))
     pkt rest
     (logged self (csv_file st) [decoded native pkt])
     (data_sent st)).
Proof.
  intros Hbuf Hpkt Hser Hk.
  unfold loop_body. rewrite Hser.
  rewrite in_waiting_pos by (rewrite length_app; unfold full in Hpkt; lia).
  rewrite (readinto_full _ _ _ Hbuf Hpkt), (raw_data_full _ _ Hpkt), Hk.
  unfold logged. cbn [fold_left].
  destruct (data self (_time st) (decoded native pkt)) as [dat time].
  cbn [fst snd].
  destruct (_write_to_file self); reflexivity.
Qed.

(** Fewer than 24 bytes are pending: [count] is incremented and [readinto]
    never returns. *)
Lemma loop_body_blocked native self st :
  full (_data_packet st) -> (0 < length (_ser st) < 24)%nat ->
  loop_body native self st =
  (Blocked,
   mkAcquisition (count st + 1) (_time st) (_data_packet st) (_ser st)
                 (csv_file st) (data_sent st)).
Proof.
  intros Hbuf Hlen.
  unfold loop_body.
  rewrite in_waiting_pos by lia.
  rewrite (readinto_short _ _ Hbuf) by lia.
  reflexivity.
Qed.

(** Nothing is pending: the turn changes nothing. *)
Lemma loop_body_idle native self st :
  _ser st = [] -> loop_body native self st = (Running, st).
Proof.
  intros Hser. unfold loop_body. rewrite Hser. reflexivity.
Qed.

Lemma while_True_idle native self st fuel :
  _ser st = [] -> while_True native fuel self st = (Running, st).
Proof.
  intros Hser. induction fuel as [| fuel IH]; [reflexivity |].
  cbn [while_True]. rewrite (loop_body_idle _ _ _ Hser). exact IH.
Qed.

(** ** The loop on a stream of packets *)

Lemma logged_nil self file : logged self file [] = file.
Proof. unfold logged. destruct (_write_to_file self); reflexivity. Qed.

Lemma logged_cons self file raw raws :
  logged self (logged self file [raw]) raws = logged self file (raw :: raws).
Proof. unfold logged. destruct (_write_to_file self); reflexivity. Qed.

Lemma fold_write_to_csv raws rows :
  fold_left __write_to_csv raws (Some rows) =
  Some (rows ++ map (map Num) raws).
Proof.
  revert rows. induction raws as [| raw raws IH]; intros rows.
  - cbn. rewrite app_nil_r. reflexivity.
  - cbn [fold_left map]. unfold __write_to_csv at 2.
    rewrite IH, <- app_assoc. reflexivity.
Qed.

Lemma clock_step self time raw n :
  clock self (snd (data self time raw)) n = clock self time (S n).
Proof.
  unfold clock, data. destruct (_time_from_serial self); cbn [snd]; lia.
Qed.

Lemma clock_0 self time : clock self time 0 = time.
Proof. unfold clock. destruct (_time_from_serial self); lia. Qed.

Lemma datas_cons self time raw raws :
  datas self time (raw :: raws) =
  fst (data self time raw) :: datas self (snd (data self time raw)) raws.
Proof.
  cbn [datas]. destruct (data self time raw) as [dat time']. reflexivity.
Qed.

Lemma gate_cons {A : Type} (k c : Z) (x : A) (xs : list A) :
  fst (gate k c (x :: xs)) =
  (if c + 1 =? k then [x] else [])
    ++ fst (gate k (if c + 1 =? k then 0 else c + 1) xs).
Proof.
  cbn [gate]. destruct (c + 1 =? k); [| reflexivity].
  destruct (gate k 0 xs) as [out c']. reflexivity.
Qed.

(** The loop on [pkts] followed by fewer than 24 bytes, once every packet
    has had its turn. *)
Lemma while_True_stream native self k :
  floordiv (_update_rate self) (_sensor_rate self) = Some k ->
  forall pkts fuel st tail,
    Forall full pkts -> full (_data_packet st) ->
    _ser st = concat pkts ++ tail ->
    (length tail < 24)%nat -> (length pkts < fuel)%nat ->
    exists st',
      while_True native fuel self st =
        (match tail with [] => Running | _ :: _ => Blocked end, st')
      /\ _ser st' = tail
      /\ _time st' = clock self (_time st) (length pkts)
      /\ csv_file st' = logged self (csv_file st) (map (decoded native) pkts)
      /\ data_sent st' =
         data_sent st
           ++ fst (gate k (count st)
                        (datas self (_time st) (map (decoded native) pkts))).
Proof.
  intros Hk pkts.
  induction pkts as [| pkt pkts IH]; intros fuel st tail Hfull Hbuf Hser Htail Hfuel.
  - cbn [concat app] in Hser.
    destruct fuel as [| fuel]; [cbn in Hfuel; lia |].
    destruct tail as [| b tail].
    + exists st. rewrite (while_True_idle _ _ _ _ Hser).
      cbn [map datas gate fst length].
      rewrite clock_0, logged_nil, app_nil_r. auto.
    + cbn [while_True].
      rewrite loop_body_blocked
        by (try assumption; rewrite Hser; cbn [length] in *; lia).
      eexists. split; [reflexivity |].
      cbn [_ser _time csv_file data_sent map datas gate fst length].
      rewrite clock_0, logged_nil, app_nil_r. auto.
  - destruct fuel as [| fuel]; [cbn in Hfuel; lia |].
    inversion Hfull as [| ? ? Hpkt Hrest]; subst.
    cbn [concat] in Hser. rewrite <- app_assoc in Hser.
    cbn [while_True].
    rewrite (loop_body_packet native self st pkt _ k Hbuf Hpkt Hser Hk).
    match goal with
    | |- context [while_True native fuel self ?s] =>
      destruct (IH fuel s tail Hrest Hpkt eq_refl Htail
                   ltac:(cbn [length] in Hfuel; lia))
        as (st' & Hrun & Hser' & Htime' & Hcsv' & Hsent')
    end.
    exists st'. split; [exact Hrun |]. split; [exact Hser' |].
    cbn [_time csv_file data_sent count] in Htime', Hcsv', Hsent'.
    cbn [map length].
    rewrite Htime', Hcsv', Hsent', clock_step, logged_cons, datas_cons, gate_cons.
    repeat split.
    destruct (count st + 1 =? k); [rewrite <- app_assoc |]; reflexivity.
Qed.

(** ** The gate *)

Lemma gate_length {A : Type} (k : Z) (xs : list A) :
  1 <= k -> forall c, 0 <= c < k ->
  Z.of_nat (length (fst (gate k c xs))) = (c + Z.of_nat (length xs)) / k.
Proof.
  intros Hk. induction xs as [| x xs IH]; intros c Hc.
  - cbn [gate fst length]. rewrite Z.add_0_r, Z.div_small by lia. reflexivity.
  - rewrite gate_cons, length_app.
    destruct (Z.eqb_spec (c + 1) k) as [Heq | Hne].
    + rewrite Nat2Z.inj_add, IH by lia. cbn [length].
      replace (c + Z.of_nat (S (length xs)))
        with (Z.of_nat (length xs) + 1 * k) by lia.
      rewrite Z.div_add, Z.add_0_l by lia. lia.
    + rewrite Nat2Z.inj_add, IH by lia. cbn [length].
      replace (c + Z.of_nat (S (length xs)))
        with (c + 1 + Z.of_nat (length xs)) by lia.
      lia.
Qed.

Lemma mod_succ_wrap (k i : Z) :
  1 <= k -> ((i - 1) mod k + 1 =? k) = (i mod k =? 0).
Proof.
  intros Hk.
  pose proof (Z.mod_pos_bound (i - 1) k ltac:(lia)) as Hr.
  pose proof (Z.div_mod (i - 1) k ltac:(lia)) as Hd.
  destruct (Z.eqb_spec ((i - 1) mod k + 1) k) as [Heq | Hne]; symmetry.
  - apply Z.eqb_eq.
    replace i with (0 + ((i - 1) / k + 1) * k) by lia.
    rewrite Z.mod_add by lia. apply Z.mod_small. lia.
  - apply Z.eqb_neq.
    replace i with (((i - 1) mod k + 1) + (i - 1) / k * k) by lia.
    rewrite Z.mod_add by lia. rewrite Z.mod_small by lia. lia.
Qed.

Lemma mod_succ_next (k i : Z) :
  1 <= k ->
  (if i mod k =? 0 then 0 else (i - 1) mod k + 1) = (i + 1 - 1) mod k.
Proof.
  intros Hk. replace (i + 1 - 1) with i by lia.
  pose proof (Z.mod_pos_bound (i - 1) k ltac:(lia)) as Hr.
  pose proof (Z.div_mod (i - 1) k ltac:(lia)) as Hd.
  pose proof (mod_succ_wrap k i Hk) as Hw.
  destruct (Z.eqb_spec (i mod k) 0) as [H0 | Hn0]; [lia |].
  apply Z.eqb_neq in Hw.
  replace i with (((i - 1) mod k + 1) + (i - 1) / k * k) at 2 by lia.
  rewrite Z.mod_add by lia.
  rewrite (Z.mod_small ((i - 1) mod k + 1)) by lia. reflexivity.
Qed.

(** The counter emits the samples whose number is a multiple of [k]. *)
Lemma gate_every_kth_from {A : Type} (k : Z) (xs : list A) :
  1 <= k -> forall i,
  fst (gate k ((i - 1) mod k) xs) = every_kth_from k i xs.
Proof.
  intros Hk. induction xs as [| x xs IH]; intros i; [reflexivity |].
  rewrite gate_cons. cbn [every_kth_from].
  rewrite (mod_succ_wrap k i Hk), (mod_succ_next k i Hk), IH.
  destruct (i mod k =? 0); reflexivity.
Qed.

Lemma gate_every_kth {A : Type} (k : Z) (xs : list A) :
  1 <= k -> fst (gate k 0 xs) = every_kth k xs.
Proof.
  intros Hk. unfold every_kth.
  rewrite <- (gate_every_kth_from k xs Hk 1).
  replace ((1 - 1) mod k) with 0 by (rewrite Z.sub_diag, Z.mod_0_l; lia).
  reflexivity.
Qed.

(** With [k <= 0] the counter, which is at least 1 when compared, never
    equals [k]. *)
Lemma gate_never {A : Type} (k : Z) (xs : list A) :
  k <= 0 -> forall c, 0 <= c -> fst (gate k c xs) = [].
Proof.
  intros Hk. induction xs as [| x xs IH]; intros c Hc; [reflexivity |].
  rewrite gate_cons.
  destruct (Z.eqb_spec (c + 1) k); [lia |].
  apply IH. lia.
Qed.

(** ** The log at any moment of the loop *)

Lemma loop_body_cases native self st s st1 :
  full (_data_packet st) -> loop_body native self st = (s, st1) ->
  full (_data_packet st1)
  /\ s <> Raised StructError /\ s <> Raised IndexError
  /\ ((_ser st1 = _ser st /\ csv_file st1 = csv_file st
       /\ data_sent st1 = data_sent st /\ (s = Running \/ s = Blocked))
      \/ (exists pkt,
             full pkt /\ _ser st = pkt ++ _ser st1
             /\ csv_file st1 = logged self (csv_file st) [decoded native pkt]
             /\ (s = Running
                 \/ (s = Raised ZeroDivisionError /\ _sensor_rate self = 0)))).
Proof.
  intros Hbuf Hrun.
  destruct (Nat.lt_ge_cases (length (_ser st)) 24) as [Hshort | Hlong].
  - destruct (_ser st) as [| b rx] eqn:Hser.
    + rewrite (loop_body_idle _ _ _ Hser) in Hrun.
      injection Hrun as <- <-.
      repeat split; try discriminate; try assumption.
      left. rewrite Hser. auto.
    + rewrite loop_body_blocked in Hrun
        by (try assumption; rewrite Hser; cbn [length] in *; lia).
      injection Hrun as <- <-. cbn [_data_packet _ser csv_file data_sent].
      repeat split; try discriminate; try assumption.
      left. rewrite Hser. auto.
  - assert (Hpkt : full (firstn 24 (_ser st)))
      by (unfold full; rewrite length_firstn; lia).
    assert (Hser : _ser st = firstn 24 (_ser st) ++ skipn 24 (_ser st))
      by (symmetry; apply firstn_skipn).
    destruct (floordiv (_update_rate self) (_sensor_rate self)) as [k |] eqn:Hk.
    + rewrite (loop_body_packet native self st _ _ k Hbuf Hpkt Hser Hk) in Hrun.
      injection Hrun as <- <-. cbn [_data_packet _ser csv_file data_sent].
      repeat split; try discriminate; try assumption.
      right. exists (firstn 24 (_ser st)). auto.
    + rewrite (loop_body_zero_division native self st _ _ Hbuf Hpkt Hser Hk)
        in Hrun.
      injection Hrun as <- <-. cbn [_data_packet _ser csv_file data_sent].
      repeat split; try discriminate; try assumption.
      right. exists (firstn 24 (_ser st)).
      repeat split; try assumption. right. split; [reflexivity |].
      unfold floordiv in Hk.
      destruct (Z.eqb_spec (_sensor_rate self) 0); [assumption | discriminate].
Qed.

(** Whenever the loop is observed, the packets read so far are a prefix of
    the stream cut every 24 bytes, and the log holds their rows, in order. *)
Lemma while_True_log native self fuel :
  forall st s st',
    full (_data_packet st) -> while_True native fuel self st = (s, st') ->
    s <> Raised StructError /\ s <> Raised IndexError
    /\ exists pkts,
        Forall full pkts /\ _ser st = concat pkts ++ _ser st'
        /\ csv_file st' = logged self (csv_file st) (map (decoded native) pkts).
Proof.
  induction fuel as [| fuel IH]; intros st s st' Hbuf Hrun.
  - cbn [while_True] in Hrun. injection Hrun as <- <-.
    repeat split; try discriminate.
    exists []. cbn [concat app map]. rewrite logged_nil. auto.
  - cbn [while_True] in Hrun.
    destruct (loop_body native self st) as [s1 st1] eqn:Hturn.
    destruct (loop_body_cases _ _ _ _ _ Hbuf Hturn)
      as (Hbuf1 & Hs1 & Hs1' & Hcase).
    assert (Hnext :
      s1 = Running ->
      s <> Raised StructError /\ s <> Raised IndexError
      /\ exists pkts,
          Forall full pkts /\ _ser st1 = concat pkts ++ _ser st'
          /\ csv_file st' = logged self (csv_file st1) (map (decoded native) pkts)).
    { intros ->. apply IH; assumption. }
    assert (Hhalt : s1 <> Running -> s = s1 /\ st' = st1).
    { intros Hne. destruct s1; try congruence;
        injection Hrun as <- <-; auto. }
    destruct Hcase as [(Hser & Hcsv & _ & [-> | ->])
                      | (pkt & Hpkt & Hser & Hcsv & [-> | [-> _]])].
    + destruct (Hnext eq_refl) as (H1 & H2 & pkts & Hf & Hs & Hc).
      repeat split; try assumption.
      exists pkts. rewrite <- Hser, <- Hcsv. auto.
    + destruct (Hhalt ltac:(discriminate)) as [-> ->].
      repeat split; try discriminate.
      exists []. cbn [concat app map]. rewrite logged_nil. auto.
    + destruct (Hnext eq_refl) as (H1 & H2 & pkts & Hf & Hs & Hc).
      repeat split; try assumption.
      exists (pkt :: pkts). cbn [concat map].
      rewrite <- app_assoc, <- Hs, <- logged_cons, <- Hcsv. auto.
    + destruct (Hhalt ltac:(discriminate)) as [-> ->].
      repeat split; try discriminate.
      exists [pkt]. cbn [concat map app]. rewrite app_nil_r. auto.
Qed.

(** ** The display window *)

Section DisplayWindow.

Context {float64 : Type}.
Variable np_float64 : pyval -> float64.
Variable truediv : pyval -> Z -> float64.
Variable self : RealTimePlot.

Lemma Forall_length_snoc (n : nat) (x : float64) (arrays : list (list float64)) :
  Forall (fun a => length a = n) arrays ->
  Forall (fun a => length a = S n) (map (fun a => a ++ [x]) arrays).
Proof.
  intros H. apply Forall_map. eapply Forall_impl; [| exact H].
  intros a Ha. cbn beta. rewrite length_app, Ha. cbn [length]. lia.
Qed.

Lemma Forall_length_zip (n : nat) (arrays : list (list float64)) :
  Forall (fun a => length a = n) arrays ->
  forall values : list pyval,
    Forall (fun a => length a = S n)
           (map (fun '(data_y, value) => data_y ++ [np_float64 value])
                (combine arrays values)).
Proof.
  induction 1 as [| a arrays Ha _ IH]; intros values; [constructor |].
  destruct values as [| v values]; [constructor |].
  cbn [combine map]. constructor; [| apply IH].
  rewrite length_app, Ha. cbn [length]. lia.
Qed.

Lemma Forall_length_tl (n : nat) (arrays : list (list float64)) :
  Forall (fun a => length a = S n) arrays ->
  Forall (fun a => length a = n) (map (@tl float64) arrays).
Proof.
  intros H. apply Forall_map. eapply Forall_impl; [| exact H].
  intros a Ha. cbn beta. destruct a; cbn [length tl] in *; lia.
Qed.

Lemma overflow_guard {A : Type} (xs : list A) (t : pyval) :
  true_divide_overflows t 1000 = false ->
  match xs with
  | [] => false
  | _ :: _ => true_divide_overflows t 1000
  end = false.
Proof. intros H. destruct xs; [reflexivity | exact H]. Qed.

(** [__update] keeps the arrays aligned when the division does not raise,
    also when [self._datas_y[0]] does. *)
Lemma update_aligned (d : Display float64) (dat : message) :
  in_float_range dat ->
  aligned d -> aligned (fst (__update np_float64 truediv self d dat)).
Proof.
  intros Hrange (n & Hx & Hy). destruct dat as [current_time values].
  unfold in_float_range in Hrange. cbn [fst] in Hrange.
  unfold __update.
  destruct values as [| v values]; [exists n; auto |].
  rewrite (overflow_guard _ _ Hrange).
  pose proof (Forall_length_zip n _ Hy (v :: values)) as Hy'.
  pose proof (Forall_length_snoc n (truediv current_time 1000) _ Hx) as Hx'.
  destruct (map _ (combine (_datas_y d) (v :: values))) as [| y0 ys] eqn:Hzip.
  - exists (S n). cbn [fst _datas_x _datas_y]. auto.
  - destruct (_max_size self <? Z.of_nat (length y0)); cbn [fst].
    + exists n. cbn [_datas_x _datas_y].
      split; apply Forall_length_tl; assumption.
    + exists (S n). cbn [_datas_x _datas_y]. auto.
Qed.

Lemma empty_display_aligned (n : nat) : aligned (@empty_display float64 n).
Proof.
  exists 0%nat. cbn [empty_display _datas_x _datas_y]. unfold empty_arrays.
  split; apply Forall_forall; intros a Ha;
    apply repeat_spec in Ha; subst; reflexivity.
Qed.

Lemma deliver_aligned (sent : list message) :
  Forall in_float_range sent ->
  forall d, aligned d -> aligned (deliver np_float64 truediv self d sent).
Proof.
  induction 1 as [| dat sent Hdat _ IH]; intros d Hd; [exact Hd |].
  cbn [deliver fold_left]. apply IH. apply update_aligned; assumption.
Qed.

Lemma deliver_snoc (d : Display float64) (sent : list message) (dat : message) :
  deliver np_float64 truediv self d (sent ++ [dat]) =
  fst (__update np_float64 truediv self
                (deliver np_float64 truediv self d sent) dat).
Proof. unfold deliver. rewrite fold_left_app. reflexivity. Qed.

Lemma tl_skipn {A : Type} (n : nat) (l : list A) :
  tl (skipn n l) = skipn (S n) l.
Proof.
  revert l. induction n as [| n IH]; intros l.
  - destruct l; reflexivity.
  - destruct l as [| a l]; [reflexivity |]. cbn [skipn] in *. apply IH.
Qed.

Lemma length_lastn {A : Type} (m : nat) (h : list A) :
  length (lastn m h) = Nat.min m (length h).
Proof. unfold lastn. rewrite length_skipn. lia. Qed.

(** Appending to a window, then dropping its head when it has grown past
    [m], gives the window of the longer history. *)
Lemma lastn_snoc {A : Type} (m : nat) (h : list A) (x : A) :
  (if (m <=? length h)%nat then tl (lastn m h ++ [x]) else lastn m h ++ [x])
  = lastn m (h ++ [x]).
Proof.
  unfold lastn. rewrite length_app. cbn [length].
  destruct (Nat.leb_spec m (length h)) as [Hle | Hgt].
  - replace (length h + 1 - m)%nat with (S (length h - m)) by lia.
    rewrite <- tl_skipn, skipn_app.
    replace (length h - m - length h)%nat with 0%nat by lia.
    reflexivity.
  - replace (length h - m)%nat with 0%nat by lia.
    replace (length h + 1 - m)%nat with 0%nat by lia.
    reflexivity.
Qed.

Lemma lastn_nil {A : Type} (m : nat) : lastn m (@nil A) = [].
Proof. unfold lastn. apply skipn_nil. Qed.

Lemma map_seq_const {A : Type} (c : A) (a n : nat) :
  map (fun _ => c) (seq a n) = repeat c n.
Proof.
  revert a. induction n as [| n IH]; intros a; [reflexivity |].
  cbn [seq map repeat]. f_equal. apply IH.
Qed.

Lemma map_repeat {A B : Type} (f : A -> B) (c : A) (n : nat) :
  map f (repeat c n) = repeat (f c) n.
Proof.
  induction n as [| n IH]; [reflexivity |].
  cbn [repeat map]. f_equal. exact IH.
Qed.

Lemma combine_columns {B : Type} (g : nat -> B) (values : list pyval) :
  forall n a,
    (n <= length values)%nat ->
    combine (map g (seq a n)) values =
    map (fun i => (g i, nth (i - a) values (PyInt 0))) (seq a n).
Proof.
  induction values as [| v values IH]; intros n a Hn.
  - cbn [length] in Hn. replace n with 0%nat by lia. reflexivity.
  - destruct n as [| n]; [reflexivity |].
    cbn [seq map combine]. rewrite Nat.sub_diag. cbn [nth].
    f_equal. rewrite IH by (cbn [length] in Hn; lia).
    apply map_ext_in. intros i Hi. apply in_seq in Hi.
    replace (i - a)%nat with (S (i - S a)) by lia. reflexivity.
Qed.

Lemma series_x_snoc (pushes : list message) (dat : message) :
  series_x truediv (pushes ++ [dat]) =
  series_x truediv pushes ++ [truediv (fst dat) 1000].
Proof. unfold series_x. rewrite map_app. reflexivity. Qed.

Lemma series_y_snoc (i : nat) (pushes : list message) (dat : message) :
  series_y np_float64 i (pushes ++ [dat]) =
  series_y np_float64 i pushes ++ [np_float64 (nth i (snd dat) (PyInt 0))].
Proof. unfold series_y. rewrite map_app. reflexivity. Qed.

(** The display after the tuples [pushes] is the window of the last
    [max_size] points of every series. *)
Lemma deliver_window (n : nat) (pushes : list message) :
  0 <= _max_size self -> (1 <= n)%nat ->
  Forall (fun m => (n <= length (snd m))%nat) pushes ->
  Forall in_float_range pushes ->
  deliver np_float64 truediv self (empty_display n) pushes =
  mkDisplay
    (repeat (lastn (Z.to_nat (_max_size self)) (series_x truediv pushes)) n)
    (map (fun i => lastn (Z.to_nat (_max_size self))
                         (series_y np_float64 i pushes))
         (seq 0 n)).
Proof.
  intros Hmax Hn.
  induction pushes as [| dat pushes IH] using rev_ind; intros Hlen Hrange.
  - unfold deliver, empty_display, empty_arrays. cbn [fold_left].
    unfold series_x, series_y. cbn [map]. rewrite lastn_nil.
    rewrite (map_seq_const (@nil float64) 0 n). reflexivity.
  - apply Forall_app in Hlen. destruct Hlen as [Hlen Hdat].
    apply Forall_app in Hrange. destruct Hrange as [Hrange Hdatr].
    inversion Hdat as [| ? ? Hvalues _]; subst.
    inversion Hdatr as [| ? ? Htime _]; subst.
    unfold in_float_range in Htime.
    rewrite deliver_snoc, (IH Hlen Hrange). clear IH.
    set (m := Z.to_nat (_max_size self)).
    assert (Hleny : forall i, length (series_y np_float64 i pushes) = length pushes)
      by (intros i; apply length_map).
    assert (Hlenx : length (series_x truediv pushes) = length pushes)
      by apply length_map.
    pose proof (lastn_snoc m (series_x truediv pushes)
                  (truediv (fst dat) 1000)) as Hx.
    rewrite <- series_x_snoc, Hlenx in Hx.
    assert (Hy : forall i,
      lastn m (series_y np_float64 i (pushes ++ [dat])) =
      (if (m <=? length pushes)%nat
       then tl (lastn m (series_y np_float64 i pushes)
                  ++ [np_float64 (nth i (snd dat) (PyInt 0))])
       else lastn m (series_y np_float64 i pushes)
              ++ [np_float64 (nth i (snd dat) (PyInt 0))])).
    { intros i. rewrite series_y_snoc, <- lastn_snoc, Hleny. reflexivity. }
    rewrite <- Hx, (map_ext _ _ Hy). clear Hx Hy.
    destruct dat as [current_time values]. cbn [fst snd] in *.
    unfold __update. cbn [_datas_x _datas_y].
    destruct values as [| v values]; [cbn [length] in Hvalues; lia |].
    rewrite (overflow_guard _ _ Htime).
    rewrite (combine_columns _ (v :: values) n 0 Hvalues).
    rewrite !map_map.
    destruct n as [| n]; [lia |].
    cbn [seq map].
    rewrite Nat.sub_0_r, length_app, length_lastn, Hleny. cbn [length].
    assert (Hcond :
      (_max_size self <? Z.of_nat (Nat.min m (length pushes) + 1))
      = (m <=? length pushes)%nat).
    { subst m. destruct (Nat.leb_spec (Z.to_nat (_max_size self)) (length pushes));
        [apply Z.ltb_lt | apply Z.ltb_ge]; lia. }
    rewrite Hcond. clear Hcond.
    destruct (m <=? length pushes)%nat; cbn [fst];
      rewrite ?map_map, !map_repeat;
      (f_equal; f_equal; apply map_ext; intros i;
       rewrite Nat.sub_0_r; reflexivity).
Qed.

End DisplayWindow.

Section DisplayEdges.

Context {float64 : Type}.
Variable np_float64 : pyval -> float64.
Variable truediv : pyval -> Z -> float64.
Variable self : RealTimePlot.

Lemma update_keeps_arrays_empty (d : Display float64) (dat : message) :
  _max_size self <= 0 ->
  in_float_range dat ->
  _datas_y d <> [] ->
  Forall (fun a => a = []) (_datas_x d) ->
  Forall (fun a => a = []) (_datas_y d) ->
  let d' := fst (__update np_float64 truediv self d dat) in
  _datas_y d' <> []
  /\ Forall (fun a => a = []) (_datas_x d')
  /\ Forall (fun a => a = []) (_datas_y d').
Proof.
  intros Hmax Hrange Hne Hx Hy. destruct dat as [current_time values].
  unfold in_float_range in Hrange. cbn [fst] in Hrange.
  unfold __update.
  destruct values as [| v values]; [cbn [fst]; auto |].
  rewrite (overflow_guard _ _ Hrange).
  destruct (_datas_y d) as [| y0 ys] eqn:Hys; [contradiction |].
  inversion Hy as [| ? ? Hy0 Hys']; subst.
  cbn [combine map app length].
  replace (_max_size self <? Z.of_nat 1) with true
    by (symmetry; apply Z.ltb_lt; lia).
  cbn [fst _datas_x _datas_y map tl]. split; [discriminate |]. split.
  - rewrite map_map. apply Forall_map.
    eapply Forall_impl; [| exact Hx]. intros a ->. reflexivity.
  - constructor; [reflexivity |].
    rewrite map_map. apply Forall_map.
    clear Hne Hy Hys. revert values.
    induction Hys' as [| a ys Ha _ IH]; intros values; [constructor |].
    destruct values as [| w values]; [constructor |].
    cbn [combine]. constructor; [subst a; reflexivity | apply IH].
Qed.

Lemma deliver_keeps_arrays_empty (sent : list message) :
  _max_size self <= 0 ->
  Forall in_float_range sent ->
  forall d,
    _datas_y d <> [] ->
    Forall (fun a => a = []) (_datas_x d) ->
    Forall (fun a => a = []) (_datas_y d) ->
    let d' := deliver np_float64 truediv self d sent in
    Forall (fun a => a = []) (_datas_x d')
    /\ Forall (fun a => a = []) (_datas_y d').
Proof.
  intros Hmax.
  induction 1 as [| dat sent Hdat _ IH]; intros d Hne Hx Hy; [cbn; auto |].
  cbn [deliver fold_left].
  destruct (update_keeps_arrays_empty d dat Hmax Hdat Hne Hx Hy)
    as (H1 & H2 & H3).
  apply IH; assumption.
Qed.

Lemma deliver_x_arrays (sent : list message) :
  forall (n : nat) (w : list float64) (ys : list (list float64)),
  exists w' ys',
    deliver np_float64 truediv self (mkDisplay (repeat w n) ys) sent =
    mkDisplay (repeat w' n) ys'.
Proof.
  induction sent as [| dat sent IH]; intros n w ys.
  - exists w, ys. reflexivity.
  - cbn [deliver fold_left]. destruct dat as [current_time values].
    unfold __update. cbn [_datas_x _datas_y].
    destruct values as [| v values]; [apply IH |].
    match goal with
    | |- context [if ?guard then _ else _] => destruct guard
    end.
    + cbn [fst]. apply IH.
    + destruct (map _ (combine ys (v :: values))) as [| y0 ys1].
      * cbn [fst]. rewrite map_repeat. apply IH.
      * destruct (_max_size self <? Z.of_nat (length y0)); cbn [fst];
          rewrite ?map_repeat; apply IH.
Qed.

Lemma deliver_y_count (sent : list message) :
  forall d,
    length (_datas_y (deliver np_float64 truediv self d sent)) =
    fold_left (fun count m =>
                 match snd m with
                 | [] => count
                 | _ :: _ => Nat.min count (length (snd m))
                 end)
              sent (length (_datas_y d)).
Proof.
  induction sent as [| dat sent IH]; intros d; [reflexivity |].
  change (deliver np_float64 truediv self d (dat :: sent))
    with (deliver np_float64 truediv self
                  (fst (__update np_float64 truediv self d dat)) sent).
  cbn [fold_left]. rewrite IH. f_equal.
  destruct dat as [current_time values]. cbn [snd]. unfold __update.
  destruct values as [| v values]; [reflexivity |].
  assert (Hlen : length (map (fun '(data_y, value) => data_y ++ [np_float64 value])
                             (combine (_datas_y d) (v :: values)))
                 = Nat.min (length (_datas_y d)) (length (v :: values)))
    by (rewrite length_map, length_combine; reflexivity).
  match goal with
  | |- context [if ?guard then _ else _] => destruct guard
  end; [exact Hlen |].
  destruct (map _ (combine (_datas_y d) (v :: values))) as [| y0 ys1].
  - exact Hlen.
  - destruct (_max_size self <? Z.of_nat (length y0)); cbn [fst _datas_y];
      rewrite ?length_map; exact Hlen.
Qed.

End DisplayEdges.

Lemma Forall_prefix {A : Type} (P : A -> Prop) (j : nat) (l : list A) :
  Forall P l -> Forall P (firstn j l).
Proof.
  intros H. revert j. induction H as [| x l Hx _ IH]; intros j.
  - rewrite firstn_nil. constructor.
  - destruct j as [| j]; [constructor |].
    cbn [firstn]. constructor; [exact Hx | apply IH].
Qed.


(** ** The examples come from [__init__] *)

Example init_main (rx : list byte) (update_rate sensor_rate : Z) :
  @__init__ unit channel_names rx update_rate sensor_rate 250 true =
  Some (main_self update_rate sensor_rate, main_state rx, empty_display 5).
Proof. reflexivity. Qed.

Example init_host (rx : list byte) (update_rate sensor_rate : Z) :
  @__init__ unit (tl channel_names) rx update_rate sensor_rate 250 true =
  Some (host_self update_rate sensor_rate, main_state rx, empty_display 5).
Proof. reflexivity. Qed.

(** ** Decoding *)

Example decoded_sample_packet :
  raw_data Struct.little sample_packet = Some sample_values.
Proof. vm_compute. reflexivity. Qed.

(** The special encodings of binary32. *)
Example binary32_specials :
  Struct.binary32_of_bits 0x3f800000 = S754_finite false 8388608 (-23)
  /\ Struct.binary32_of_bits 0x80000000 = S754_zero true
  /\ Struct.binary32_of_bits 0x00000001 = S754_finite false 1 (-149)
  /\ Struct.binary32_of_bits 0x7f800000 = S754_infinity false
  /\ Struct.binary32_of_bits 0xffc00000 = S754_nan.
Proof. vm_compute. repeat split; reflexivity. Qed.

(** The IEEE 754 reading of the channel words of [sample_packet]: 1.23 and
    -4.56 to the nearest binary32, 0, 100 and 25.5. *)
Example ieee754_binary32_samples :
  same_value (ieee754_binary32 0x3f9d70a4) (Number false (10317988 # 8388608))
  /\ same_value (ieee754_binary32 0xc091eb85) (Number true (- (9563013 # 2097152)))
  /\ same_value (ieee754_binary32 0x00000000) (Number false 0)
  /\ same_value (ieee754_binary32 0x42c80000) (Number false 100)
  /\ same_value (ieee754_binary32 0x41cc0000) (Number false (51 # 2))
  /\ ieee754_binary32 0xff800000 = Infinity true
  /\ ieee754_binary32 0x7fc00000 = NaN.
Proof. vm_compute. repeat split; reflexivity. Qed.

(** The byte order matters: a big-endian host reads the timestamp field of
    [sample_packet] as another number. *)
Example timestamp_by_byte_order :
  Struct.unpack_I Struct.little (slice 0 4 sample_packet) = Some 1000
  /\ Struct.unpack_I Struct.big (slice 0 4 sample_packet) = Some 3892510720.
Proof. vm_compute. split; reflexivity. Qed.

Lemma lor_hidden_bit (m : Z) :
  0 <= m < 2 ^ 23 -> Z.lor m (Z.shiftl 1 23) = m + 2 ^ 23.
Proof.
  intros Hm. rewrite Z.shiftl_1_l.
  rewrite <- Z.lxor_lor, <- Z.add_nocarry_lxor; try reflexivity.
  all: apply Z.bits_inj'; intros n Hn;
    rewrite Z.land_spec, Z.bits_0, Z.pow2_bits_eqb by lia;
    destruct (Z.eqb_spec 23 n) as [<- | Hne]; [| apply andb_false_r];
    rewrite andb_true_r;
    destruct (Z.eq_dec m 0) as [-> | Hnz]; [apply Z.bits_0 |];
    apply Z.bits_above_log2; [lia |];
    apply Z.log2_lt_pow2; lia.
Qed.

Lemma from_bytes_host_uint (native : Struct.byteorder) (bs : list byte) :
  Struct.from_bytes native bs = host_uint native bs.
Proof.
  destruct native; cbn [host_uint].
  - apply from_bytes_little.
  - rewrite <- from_bytes_little. cbn [Struct.from_bytes].
    rewrite rev_involutive. reflexivity.
Qed.

Lemma host_uint_bound (native : Struct.byteorder) (bs : list byte) :
  0 <= host_uint native bs < 256 ^ Z.of_nat (length bs).
Proof.
  destruct native; cbn [host_uint].
  - apply le_uint_bound.
  - rewrite <- (length_rev bs). apply le_uint_bound.
Qed.

(** The float that [struct] builds from a 32-bit word denotes what IEEE 754
    says the word denotes. *)
Lemma binary32_of_bits_denotes (w : Z) :
  same_value (float_value (Struct.binary32_of_bits w)) (ieee754_binary32 w).
Proof.
  unfold Struct.binary32_of_bits, ieee754_binary32.
  assert (Hsign : Z.testbit w 31 = ((w / 2 ^ 31) mod 2 =? 1)).
  { pose proof (Z.testbit_spec' w 31 ltac:(lia)) as H.
    destruct (Z.testbit w 31); cbn [Z.b2z] in H; rewrite <- H; reflexivity. }
  assert (Hexp : Z.land (Z.shiftr w 23) 255 = (w / 2 ^ 23) mod 2 ^ 8).
  { change 255 with (Z.ones 8).
    rewrite Z.land_ones, Z.shiftr_div_pow2 by lia. reflexivity. }
  assert (Hfrac : Z.land w (Z.ones 23) = w mod 2 ^ 23)
    by (apply Z.land_ones; lia).
  cbv zeta. rewrite Hexp, Hfrac, Hsign. clear Hexp Hfrac Hsign.
  pose proof (Z.mod_pos_bound (w / 2 ^ 23) (2 ^ 8) ltac:(lia)) as HE.
  pose proof (Z.mod_pos_bound w (2 ^ 23) ltac:(lia)) as HT.
  set (E := (w / 2 ^ 23) mod 2 ^ 8) in *.
  set (T := w mod 2 ^ 23) in *.
  set (s := (w / 2 ^ 31) mod 2 =? 1).
  destruct (Z.eqb_spec E 0) as [HE0 | HE0].
  - replace (E =? 255) with false by (symmetry; apply Z.eqb_neq; lia).
    destruct T as [| p | p] eqn:HTp; cbn [float_value same_value].
    + split; [reflexivity |]. change (inject_Z 0) with 0%Q. ring.
    + split; [reflexivity |].
      assert (H : (Qpower 2 (-149) == Qpower 2 (-126) * Qpower 2 (-23))%Q)
        by (vm_compute; reflexivity).
      rewrite H. ring.
    + lia.
  - destruct (Z.eqb_spec E 255) as [HE1 | HE1].
    + destruct (T =? 0); cbn [float_value same_value]; auto.
    + rewrite lor_hidden_bit by exact HT.
      destruct (T + 2 ^ 23) as [| p | p] eqn:Hp; try lia.
      cbn [float_value same_value]. split; [reflexivity |].
      rewrite <- Hp, inject_Z_plus.
      replace (E - 150) with ((E - 127) + (-23)) by lia.
      rewrite Qpower_plus by discriminate.
      assert (H : (inject_Z (2 ^ 23) * Qpower 2 (-23) == 1)%Q)
        by (vm_compute; reflexivity).
      set (a := Qpower 2 (E - 127)). set (b := Qpower 2 (-23)) in *.
      set (c := inject_Z (2 ^ 23)) in *. set (t := inject_Z T).
      set (sg := (if s then - (1) else 1)%Q).
      transitivity (sg * a * (c * b + b * t))%Q; [ring |].
      rewrite H. reflexivity.
Qed.

(** C6, as the code has it.  Decoding a full 24-byte packet is a function
    of its bytes alone: whatever the buffer held, [readinto] leaves exactly
    the packet in it, and [raw_data] yields six values.  The first is the
    unsigned 32-bit integer of bytes [[0, 4)] and, for each channel [i] in
    0..4, the next is the IEEE-754 binary32 number of bytes
    [[4 + 4 i, 8 + 4 i)], in channel order, both read in the byte order of
    the host: little-endian on a little-endian host. *)
Theorem raw_data_wire_layout native (pkt : list byte) :
  full pkt ->
  (forall buf rest, full buf -> Serial.readinto buf (pkt ++ rest) = Some (pkt, rest))
  /\ exists raw,
      raw_data native pkt = Some raw
      /\ length raw = 6%nat
      /\ nth 0 raw (PyInt 0) = PyInt (host_uint native (slice 0 4 pkt))
      /\ 0 <= host_uint native (slice 0 4 pkt) < 2 ^ 32
      /\ forall i, (i < 5)%nat ->
           exists f,
             nth (S i) raw (PyInt 0) = PyFloat f
             /\ same_value
                  (float_value f)
                  (ieee754_binary32
                     (host_uint native (slice (4 + 4 * i) (8 + 4 * i) pkt))).
Proof.
  intros Hpkt. split.
  - intros buf rest Hbuf. apply readinto_full; assumption.
  - exists (decoded native pkt).
    split; [apply raw_data_full; exact Hpkt |].
    split; [reflexivity |].
    split; [cbn [decoded nth]; rewrite from_bytes_host_uint; reflexivity |].
    split.
    + pose proof (host_uint_bound native (slice 0 4 pkt)) as Hb.
      rewrite length_slice in Hb by (unfold full in Hpkt; lia).
      exact Hb.
    + intros i Hi.
      do 5 (destruct i as [| i];
            [cbn [decoded nth]; eexists; split; [reflexivity |];
             rewrite from_bytes_host_uint; apply binary32_of_bits_denotes |]).
      lia.
Qed.

Lemma raw_data_wire_layout_witness :
  full sample_packet
  /\ exists raw,
      raw_data Struct.little sample_packet = Some raw
      /\ nth 0 raw (PyInt 0) = PyInt (le_uint (slice 0 4 sample_packet)).
Proof.
  split; [reflexivity |].
  destruct (raw_data_wire_layout Struct.little sample_packet eq_refl)
    as (_ & raw & Hraw & _ & Hts & _).
  exists raw. split; assumption.
Defined.

(** C6 as worded fails on a big-endian host: the timestamp bytes of
    [sample_packet], whose unsigned little-endian reading is 1000, are
    unpacked as 3892510720. *)
Lemma big_endian_host_reads_another_timestamp :
  le_uint (slice 0 4 sample_packet) = 1000
  /\ (exists raw,
         raw_data Struct.big sample_packet = Some raw
         /\ nth 0 raw (PyInt 0) = PyInt 3892510720)
  /\ ~ (exists raw,
           raw_data Struct.big sample_packet = Some raw
           /\ nth 0 raw (PyInt 0) = PyInt (le_uint (slice 0 4 sample_packet))).
Proof.
  split; [reflexivity |]. split.
  - eexists. split; [vm_compute; reflexivity | reflexivity].
  - intros (raw & Hraw & Hts).
    vm_compute in Hraw. injection Hraw as <-.
    vm_compute in Hts. discriminate Hts.
Qed.

(** ** The scheduler *)

Lemma get_data_stream native self k :
  floordiv (_update_rate self) (_sensor_rate self) = Some k ->
  forall pkts fuel st tail,
    Forall full pkts -> full (_data_packet st) ->
    _ser st = concat pkts ++ tail ->
    (length tail < 24)%nat -> (length pkts < fuel)%nat ->
    exists st',
      __get_data native fuel self st =
        (match tail with [] => Running | _ :: _ => Blocked end, st')
      /\ _ser st' = tail
      /\ _time st' = clock self (_time st) (length pkts)
      /\ csv_file st' = logged self (csv_file st) (map (decoded native) pkts)
      /\ data_sent st' =
         data_sent st
           ++ fst (gate k 0 (datas self (_time st) (map (decoded native) pkts))).
Proof.
  intros Hk pkts fuel st tail Hfull Hbuf Hser Htail Hfuel.
  unfold __get_data.
  exact (while_True_stream native self k Hk pkts fuel
           (mkAcquisition 0 (_time st) (_data_packet st) (_ser st)
                          (csv_file st) (data_sent st))
           tail Hfull Hbuf Hser Htail Hfuel).
Qed.

Lemma full_repeat (pkt : list byte) (n : nat) :
  full pkt -> Forall full (repeat pkt n).
Proof.
  intros H. apply Forall_forall. intros p Hp.
  apply repeat_spec in Hp. subst. exact H.
Qed.

(** C1, as the code has it.  When [k = update_rate // sensor_rate] is at
    least 1, the loop, fed a stream of full packets, emits exactly the
    samples whose number (from 1) is a multiple of [k], in order, and goes
    on polling without raising; [k] is the quotient itself, not clamped. *)
Theorem forwards_every_kth native self k pkts fuel st :
  floordiv (_update_rate self) (_sensor_rate self) = Some k -> 1 <= k ->
  Forall full pkts -> full (_data_packet st) ->
  _ser st = concat pkts -> (length pkts < fuel)%nat ->
  fst (__get_data native fuel self st) = Running
  /\ data_sent (snd (__get_data native fuel self st)) =
     data_sent st
       ++ every_kth k (datas self (_time st) (map (decoded native) pkts)).
Proof.
  intros Hk Hk1 Hfull Hbuf Hser Hfuel.
  destruct (get_data_stream native self k Hk pkts fuel st [] Hfull Hbuf
              ltac:(rewrite app_nil_r; exact Hser) ltac:(cbn; lia) Hfuel)
    as (st' & Hrun & _ & _ & _ & Hsent).
  rewrite Hrun. cbn [fst snd]. split; [reflexivity |].
  rewrite Hsent, gate_every_kth by exact Hk1. reflexivity.
Qed.

Lemma forwards_every_kth_witness :
  data_sent (snd (__get_data Struct.little 6 (main_self 25 10)
                             (main_state (concat (repeat sample_packet 5))))) =
  [(PyInt 1000, tl sample_values); (PyInt 1000, tl sample_values)].
Proof.
  refine (eq_trans
    (proj2 (forwards_every_kth Struct.little (main_self 25 10) 2
              (repeat sample_packet 5) 6
              (main_state (concat (repeat sample_packet 5)))
              eq_refl _ _ eq_refl eq_refl _)) _).
  - lia.
  - apply full_repeat. reflexivity.
  - cbn. lia.
  - vm_compute. reflexivity.
Defined.

(** C1 as worded fails: with [update_rate = 10 < sensor_rate = 50] the
    quotient is 0, the counter is at least 1 when it is compared, and of
    three decoded (and logged) samples none is forwarded. *)
Lemma no_forward_when_update_rate_below_sensor_rate :
  let self := main_self 10 50 in
  let st' := snd (__get_data Struct.little 10 self
                             (main_state (concat (repeat sample_packet 3)))) in
  _update_rate self < _sensor_rate self
  /\ length (rows_of (csv_file st')) = 4%nat
  /\ data_sent st' = []
  /\ data_sent st' <> datas self 0 (repeat sample_values 3).
Proof.
  vm_compute. repeat split; try reflexivity. discriminate.
Qed.

(** C3. For [k = update_rate // sensor_rate >= 1] and a stream of [T] full
    packets, the loop forwards [T / k] samples (floor) and, when logging is
    on, appends [T] rows. *)
Theorem forwarded_count native self k pkts fuel st :
  floordiv (_update_rate self) (_sensor_rate self) = Some k -> 1 <= k ->
  Forall full pkts -> full (_data_packet st) ->
  _ser st = concat pkts -> (length pkts < fuel)%nat ->
  let st' := snd (__get_data native fuel self st) in
  Z.of_nat (length (data_sent st')) =
    Z.of_nat (length (data_sent st)) + Z.of_nat (length pkts) / k
  /\ (_write_to_file self = true ->
      length (rows_of (csv_file st')) =
        (length (rows_of (csv_file st)) + length pkts)%nat).
Proof.
  intros Hk Hk1 Hfull Hbuf Hser Hfuel.
  destruct (get_data_stream native self k Hk pkts fuel st [] Hfull Hbuf
              ltac:(rewrite app_nil_r; exact Hser) ltac:(cbn; lia) Hfuel)
    as (st' & Hrun & _ & _ & Hcsv & Hsent).
  rewrite Hrun. cbn [snd]. split.
  - rewrite Hsent, length_app, Nat2Z.inj_add.
    rewrite gate_length by lia.
    assert (Hlen : forall raws time, length (datas self time raws) = length raws).
    { induction raws as [| raw raws IH]; intros time; [reflexivity |].
      rewrite datas_cons. cbn [length]. rewrite IH. reflexivity. }
    rewrite Hlen, length_map, Z.add_0_l. reflexivity.
  - intros Hw. rewrite Hcsv. unfold logged. rewrite Hw.
    destruct (csv_file st) as [rows |]; cbn [rows_of].
    + rewrite fold_write_to_csv. cbn [rows_of].
      rewrite length_app, !length_map. reflexivity.
    + destruct pkts as [| pkt pkts]; [reflexivity |].
      cbn [map fold_left]. unfold __write_to_csv at 2.
      rewrite fold_write_to_csv. cbn [rows_of app length].
      rewrite !length_map. reflexivity.
Qed.

(** The scenario of C3: 10 packets, [sensor_rate = 10], [update_rate = 50]:
    2 samples are forwarded and 10 rows follow the header. *)
Lemma forwarded_count_witness :
  let st' := snd (__get_data Struct.little 11 (main_self 50 10)
                             (main_state (concat (repeat sample_packet 10)))) in
  Z.of_nat (length (data_sent st')) = 2
  /\ length (rows_of (csv_file st')) = 11%nat.
Proof.
  intros st'.
  destruct (forwarded_count Struct.little (main_self 50 10) 5
              (repeat sample_packet 10) 11
              (main_state (concat (repeat sample_packet 10)))
              eq_refl ltac:(lia) (full_repeat sample_packet 10 eq_refl)
              eq_refl eq_refl ltac:(cbn; lia)) as [Hsent Hrows].
  split; [exact Hsent | exact (Hrows eq_refl)].
Defined.

(** C2, evaluated.  In host-synthesized time mode [data] adds
    [update_rate] to the clock, and the loop builds [data] for every decoded
    sample: with [update_rate = 50] and [sensor_rate = 10] the first
    forwarded tuple, the fifth sample, carries 250 and the second 500, not
    50 and 100.  With the marker the tuple carries the device timestamp. *)
Theorem clock_advances_on_every_decoded_sample :
  (forall update_rate sensor_rate time raw,
      data (host_self update_rate sensor_rate) time raw =
      ((PyInt (time + update_rate), raw), time + update_rate))
  /\ data_sent (snd (__get_data Struct.little 11 (host_self 50 10)
                                (main_state (concat (repeat sample_packet 10))))) =
     [(PyInt 250, sample_values); (PyInt 500, sample_values)]
  /\ data_sent (snd (__get_data Struct.little 11 (main_self 50 10)
                                (main_state (concat (repeat sample_packet 10))))) =
     [(PyInt 1000, tl sample_values); (PyInt 1000, tl sample_values)].
Proof.
  split; [reflexivity |].
  split; vm_compute; reflexivity.
Qed.

(** ** The display buffer *)

(** C4, as the code has it.  From the empty display with [n] series,
    after [M > max_size] tuples that each carry at least [n] values and a
    time within the float range, series [i] holds exactly [max_size]
    points: the x values and the y values of channel [i] of the last
    [max_size] tuples, in arrival order. *)
Theorem display_keeps_latest_window {float64 : Type}
    (np_float64 : pyval -> float64) (truediv : pyval -> Z -> float64)
    (self : RealTimePlot) (n : nat) (pushes : list message) (i : nat) :
  0 <= _max_size self ->
  _max_size self < Z.of_nat (length pushes) ->
  Forall (fun m => (n <= length (snd m))%nat) pushes ->
  Forall in_float_range pushes ->
  (i < n)%nat ->
  let d := deliver np_float64 truediv self (empty_display n) pushes in
  let m := Z.to_nat (_max_size self) in
  length (_datas_x d) = n /\ length (_datas_y d) = n
  /\ nth i (_datas_x d) [] = lastn m (series_x truediv pushes)
  /\ nth i (_datas_y d) [] = lastn m (series_y np_float64 i pushes)
  /\ length (nth i (_datas_x d) []) = m
  /\ length (nth i (_datas_y d) []) = m.
Proof.
  intros Hmax HM Hlen Hrange Hi d m. subst d.
  rewrite (deliver_window np_float64 truediv self n pushes Hmax ltac:(lia)
             Hlen Hrange).
  cbn [_datas_x _datas_y]. fold m.
  assert (Hx : nth i (repeat (lastn m (series_x truediv pushes)) n) [] =
               lastn m (series_x truediv pushes)).
  { apply nth_error_nth.
    rewrite nth_error_repeat by exact Hi. reflexivity. }
  assert (Hy : nth i (map (fun j => lastn m (series_y np_float64 j pushes))
                          (seq 0 n)) [] =
               lastn m (series_y np_float64 i pushes)).
  { apply nth_error_nth.
    rewrite nth_error_map, nth_error_seq.
    replace (i <? n)%nat with true by (symmetry; apply Nat.ltb_lt; exact Hi).
    reflexivity. }
  rewrite Hx, Hy, repeat_length, length_map, length_seq, !length_lastn.
  unfold series_x, series_y. rewrite !length_map.
  unfold message in *.
  repeat split; try reflexivity; subst m; lia.
Qed.

Lemma display_keeps_latest_window_witness :
  let self := mkRealTimePlot 50 50 true 2 2 false in
  let pushes := [(PyInt 10, [PyInt 1; PyInt 2]); (PyInt 20, [PyInt 3; PyInt 4]);
                 (PyInt 30, [PyInt 5; PyInt 6])] in
  let d := deliver (fun v => v) (fun t _ => t) self (empty_display 2) pushes in
  nth 1 (_datas_x d) [] = [PyInt 20; PyInt 30]
  /\ nth 1 (_datas_y d) [] = [PyInt 4; PyInt 6].
Proof.
  intros self pushes d.
  destruct (display_keeps_latest_window (fun v => v) (fun t _ => t)
              self 2 pushes 1
              ltac:(cbn; lia) ltac:(cbn; lia)
              ltac:(repeat constructor)
              ltac:(repeat constructor) ltac:(lia))
    as (_ & _ & Hx & Hy & _).
  split; [exact Hx | exact Hy].
Defined.

(** C4 as worded fails on a push whose time is too large for a float: the
    second of three pushes raises [OverflowError] after the y arrays were
    extended and before the x arrays are, so that with [max_size = 2] the
    series ends with two y values and a single x value. *)
Lemma window_broken_by_a_time_beyond_float_range :
  let self := mkRealTimePlot 50 50 true 1 2 false in
  let pushes := [(PyInt 10, [PyInt 1]); (PyInt (10 ^ 312), [PyInt 2]);
                 (PyInt 30, [PyInt 3])] in
  let d := deliver (fun v => v) (fun t _ => t) self (empty_display 1) pushes in
  snd (__update (fun v => v) (fun t _ => t) self
                (deliver (fun v => v) (fun t _ => t) self (empty_display 1)
                         [(PyInt 10, [PyInt 1])])
                (PyInt (10 ^ 312), [PyInt 2])) = Some OverflowError
  /\ _max_size self < Z.of_nat (length pushes)
  /\ _datas_y d = [[PyInt 2; PyInt 3]]
  /\ _datas_x d = [[PyInt 30]]
  /\ Z.of_nat (length (nth 0 (_datas_x d) [])) <> _max_size self.
Proof.
  vm_compute. repeat split; try reflexivity; discriminate.
Qed.

Lemma y_count_kept (n : nat) (l : list message) :
  Forall (fun m => snd m = [] \/ (n <= length (snd m))%nat) l ->
  fold_left (fun count m =>
               match snd m with
               | [] => count
               | _ :: _ => Nat.min count (length (snd m))
               end)
            l n = n.
Proof.
  induction 1 as [| dat rest Hdat _ IH]; [reflexivity |].
  cbn [fold_left].
  destruct Hdat as [-> | Hdat]; [exact IH |].
  destruct (snd dat) as [| v values]; [exact IH |].
  rewrite Nat.min_l by exact Hdat. exact IH.
Qed.

(** C5, as the code has it.  From the empty display with [n] series, at
    every point of a sequence of delivered tuples whose times are within
    the float range and whose value lists are empty or hold at least [n]
    values, there are [n] x arrays and [n] y arrays, all of one length. *)
Theorem display_series_keep_one_length {float64 : Type}
    (np_float64 : pyval -> float64) (truediv : pyval -> Z -> float64)
    (self : RealTimePlot) (n : nat) (sent : list message) (j : nat) :
  Forall in_float_range sent ->
  Forall (fun m => snd m = [] \/ (n <= length (snd m))%nat) sent ->
  let d := deliver np_float64 truediv self (empty_display n) (firstn j sent) in
  length (_datas_x d) = n /\ length (_datas_y d) = n
  /\ exists len : nat,
      Forall (fun a => length a = len) (_datas_x d)
      /\ Forall (fun a => length a = len) (_datas_y d).
Proof.
  intros Hrange Hvalues d. subst d.
  apply (Forall_prefix _ j) in Hrange. apply (Forall_prefix _ j) in Hvalues.
  split; [| split].
  - destruct (deliver_x_arrays np_float64 truediv self (firstn j sent)
                n [] (empty_arrays n)) as (w & ys & H).
    unfold empty_display, empty_arrays in *. rewrite H. apply repeat_length.
  - rewrite deliver_y_count. cbn [empty_display _datas_y].
    unfold empty_arrays. rewrite repeat_length.
    apply y_count_kept. exact Hvalues.
  - apply (deliver_aligned np_float64 truediv self _ Hrange).
    apply empty_display_aligned.
Qed.

Lemma display_series_keep_one_length_witness :
  let self := mkRealTimePlot 50 50 true 2 2 false in
  let sent := [(PyInt 10, [PyInt 1; PyInt 2]); (PyInt 20, []);
               (PyInt 30, [PyInt 5; PyInt 6; PyInt 7])] in
  let d := deliver (fun v => v) (fun t _ => t) self (empty_display 2)
                   (firstn 3 sent) in
  length (_datas_x d) = 2%nat /\ length (_datas_y d) = 2%nat
  /\ exists len : nat,
      Forall (fun a => length a = len) (_datas_x d)
      /\ Forall (fun a => length a = len) (_datas_y d).
Proof.
  intros self sent.
  exact (display_series_keep_one_length (fun v => v) (fun t _ => t) self 2
           sent 3
           ltac:(repeat constructor)
           ltac:(repeat (apply Forall_cons;
                         [cbn; first [left; reflexivity | right; lia] |]);
                 apply Forall_nil)).
Defined.

(** C5 as worded fails on a push whose time is too large for a float:
    [__update] raises [OverflowError] between the two assignments and leaves
    the y array one point longer than the x array. *)
Lemma arrays_misaligned_by_a_time_beyond_float_range :
  let self := mkRealTimePlot 50 50 true 1 250 false in
  let d := deliver (fun v => v) (fun t _ => t) self (empty_display 1)
                   [(PyInt (10 ^ 312), [PyInt 1])] in
  _datas_x d = [[]]
  /\ _datas_y d = [[PyInt 1]]
  /\ ~ aligned d.
Proof.
  vm_compute. repeat split.
  intros (len & Hx & Hy).
  inversion Hx as [| ? ? Hx0 _]. inversion Hy as [| ? ? Hy0 _].
  cbn in Hx0, Hy0. congruence.
Qed.

(** ** Truncated packets *)

(** C7, as the code has it.  When the stream ends in a truncated packet,
    that is with fewer than 24 bytes after the full packets, and
    [sensor_rate] is not zero, the loop ends blocked in [readinto] without
    raising; the log, the emitted tuples and therefore the display are those
    of the same run without the truncated bytes, which stay pending as the
    head of the next 24-byte read. *)
Theorem truncated_tail_blocks_the_read native self k pkts tail fuel st :
  floordiv (_update_rate self) (_sensor_rate self) = Some k ->
  Forall full pkts -> full (_data_packet st) ->
  (0 < length tail < 24)%nat ->
  _ser st = concat pkts ++ tail -> (length pkts < fuel)%nat ->
  let whole :=
    mkAcquisition (count st) (_time st) (_data_packet st) (concat pkts)
                  (csv_file st) (data_sent st) in
  let st' := snd (__get_data native fuel self st) in
  let whole' := snd (__get_data native fuel self whole) in
  fst (__get_data native fuel self st) = Blocked
  /\ csv_file st' = csv_file whole'
  /\ data_sent st' = data_sent whole'
  /\ (forall (float64 : Type) (np_float64 : pyval -> float64)
             (truediv : pyval -> Z -> float64) (d : Display float64),
         deliver np_float64 truediv self d (data_sent st') =
         deliver np_float64 truediv self d (data_sent whole'))
  /\ _ser st' = tail.
Proof.
  intros Hk Hfull Hbuf Htail Hser Hfuel whole st' whole'.
  destruct (get_data_stream native self k Hk pkts fuel st tail Hfull Hbuf
              Hser ltac:(lia) Hfuel)
    as (s1 & Hrun1 & Hser1 & _ & Hcsv1 & Hsent1).
  destruct (get_data_stream native self k Hk pkts fuel whole [] Hfull Hbuf
              ltac:(cbn [_ser whole]; rewrite app_nil_r; reflexivity)
              ltac:(cbn; lia) Hfuel)
    as (s2 & Hrun2 & _ & _ & Hcsv2 & Hsent2).
  subst st' whole'. rewrite Hrun1, Hrun2. cbn [fst snd].
  cbn [whole _time csv_file data_sent] in Hcsv2, Hsent2.
  assert (Hsent : data_sent s1 = data_sent s2) by congruence.
  repeat split.
  - destruct tail; [cbn in Htail; lia | reflexivity].
  - congruence.
  - exact Hsent.
  - intros. rewrite Hsent. reflexivity.
  - exact Hser1.
Qed.

Lemma truncated_tail_blocks_the_read_witness :
  let st := main_state (sample_packet ++ [x01; x02; x03]%byte) in
  let st' := snd (__get_data Struct.little 5 (main_self 50 50) st) in
  fst (__get_data Struct.little 5 (main_self 50 50) st) = Blocked
  /\ csv_file st' =
     Some [map Text ("time"%string :: tl channel_names); map Num sample_values]
  /\ _ser st' = [x01; x02; x03]%byte.
Proof.
  intros st st'.
  destruct (truncated_tail_blocks_the_read Struct.little (main_self 50 50) 1
              [sample_packet] [x01; x02; x03]%byte 5 st
              eq_refl ltac:(repeat constructor) eq_refl
              ltac:(cbn; lia) eq_refl ltac:(cbn; lia))
    as (Hs & Hcsv & _ & _ & Hser).
  split; [exact Hs |]. split; [| exact Hser].
  etransitivity; [exact Hcsv |]. vm_compute. reflexivity.
Defined.

(** C7 as worded fails on a packet that follows a truncated one: the four
    pending bytes and the first twenty bytes of [sample_packet] are read as
    one packet, so the row logged and the tuple emitted are not those of
    [sample_packet]; its last four bytes stay pending. *)
Lemma packet_after_truncated_packet_is_misread :
  let rx := [x01; x00; x00; x00]%byte ++ sample_packet in
  let st' := snd (__get_data Struct.little 5 (main_self 50 50) (main_state rx)) in
  csv_file st' =
    Some [map Text ("time"%string :: tl channel_names);
          map Num [PyInt 1;
                   PyFloat (S754_finite false 1000 (-149));
                   PyFloat (S754_finite false 10317988 (-23));
                   PyFloat (S754_finite true 9563013 (-21));
                   PyFloat (S754_zero false);
                   PyFloat (S754_finite false 13107200 (-17))]]
  /\ csv_file st' <>
     Some [map Text ("time"%string :: tl channel_names); map Num sample_values]
  /\ data_sent st' <> [(PyInt 1000, tl sample_values)]
  /\ _ser st' = [x00; x00; xcc; x41]%byte.
Proof.
  vm_compute. repeat split; try reflexivity; discriminate.
Qed.

(** ** The log *)

(** C8. Start from [__init__] and observe the loop after any number of
    turns, whatever the rates (also when [//] raises).  The bytes read so
    far are whole packets.  With logging enabled the file holds the header
    and then exactly one row per packet read, in reading order; with
    logging disabled there is no file, before or after. *)
Theorem log_has_one_row_per_decoded_sample native {float64 : Type}
    data_set rx update_rate sensor_rate max_size write_to_file
    (self : RealTimePlot) (st : Acquisition) (d : Display float64) fuel :
  __init__ data_set rx update_rate sensor_rate max_size write_to_file
    = Some (self, st, d) ->
  let st' := snd (__get_data native fuel self st) in
  exists pkts,
    Forall full pkts /\ rx = concat pkts ++ _ser st'
    /\ ((write_to_file = true
         /\ exists header,
             csv_file st = Some [header]
             /\ csv_file st' =
                Some (header :: map (fun pkt => map Num (decoded native pkt)) pkts))
        \/ (write_to_file = false
            /\ csv_file st = None /\ csv_file st' = None)).
Proof.
  intros Hinit st'.
  destruct data_set as [| first rest]; [discriminate |].
  cbn [__init__] in Hinit. injection Hinit as <- <- _.
  subst st'. unfold __get_data. cbn [_time _data_packet _ser csv_file data_sent].
  match goal with
  | |- context [while_True native fuel ?self ?s] =>
    destruct (while_True native fuel self s) as [s1 st1] eqn:Hrun;
    destruct (while_True_log native self fuel s s1 st1 eq_refl Hrun)
      as (_ & _ & pkts & Hfull & Hser & Hcsv)
  end.
  cbn [snd _ser csv_file] in *.
  exists pkts. split; [exact Hfull |]. split; [exact Hser |].
  unfold logged in Hcsv. cbn [_write_to_file] in Hcsv.
  destruct write_to_file.
  - left. split; [reflexivity |]. eexists. split; [reflexivity |].
    rewrite Hcsv, fold_write_to_csv, map_map. reflexivity.
  - right. auto.
Qed.

Lemma log_has_one_row_per_decoded_sample_witness :
  let rx := sample_packet ++ sample_packet ++ [x07]%byte in
  let st' := snd (__get_data Struct.little 9 (main_self 50 10) (main_state rx)) in
  exists pkts, Forall full pkts /\ rx = concat pkts ++ _ser st'.
Proof.
  intros rx st'.
  destruct (log_has_one_row_per_decoded_sample Struct.little
              channel_names rx 50 10 250 true
              (main_self 50 10) (main_state rx) (@empty_display unit 5) 9
              eq_refl) as (pkts & Hfull & Hrx & _).
  exists pkts. split; assumption.
Defined.

(** C10. A turn of the loop that reads a full packet with logging enabled
    appends one row: the timestamp unpacked from bytes [[0, 4)] and then
    the five channel values, whatever the timing mode of [self], its rates
    and the value of the synthesized clock [_time]. *)
Theorem logged_row_is_the_decoded_packet native self st pkt rest :
  full (_data_packet st) -> full pkt -> _ser st = pkt ++ rest ->
  _write_to_file self = true ->
  csv_file (snd (loop_body native self st)) =
  Some (rows_of (csv_file st)
        ++ [[Num (PyInt (Struct.from_bytes native (slice 0 4 pkt)));
             Num (PyFloat (Struct.binary32_of_bits
                             (Struct.from_bytes native (slice 4 8 pkt))));
             Num (PyFloat (Struct.binary32_of_bits
                             (Struct.from_bytes native (slice 8 12 pkt))));
             Num (PyFloat (Struct.binary32_of_bits
                             (Struct.from_bytes native (slice 12 16 pkt))));
             Num (PyFloat (Struct.binary32_of_bits
                             (Struct.from_bytes native (slice 16 20 pkt))));
             Num (PyFloat (Struct.binary32_of_bits
                             (Struct.from_bytes native (slice 20 24 pkt))))]]).
Proof.
  intros Hbuf Hpkt Hser Hw.
  destruct (floordiv (_update_rate self) (_sensor_rate self)) as [k |] eqn:Hk.
  - rewrite (loop_body_packet native self st pkt rest k Hbuf Hpkt Hser Hk).
    cbn [snd csv_file]. unfold logged. rewrite Hw. reflexivity.
  - rewrite (loop_body_zero_division native self st pkt rest Hbuf Hpkt Hser Hk).
    cbn [snd csv_file]. unfold logged. rewrite Hw. reflexivity.
Qed.

(** In host-synthesized time mode the clock reaches 50 and the row starts
    with the device timestamp 1000. *)
Lemma logged_row_is_the_decoded_packet_witness :
  let st' := snd (loop_body Struct.little (host_self 50 50)
                            (main_state sample_packet)) in
  _time st' = 50
  /\ csv_file st' =
     Some [map Text ("time"%string :: tl channel_names); map Num sample_values].
Proof.
  intros st'. split; [reflexivity |].
  etransitivity.
  - exact (logged_row_is_the_decoded_packet Struct.little (host_self 50 50)
             (main_state sample_packet) sample_packet []
             eq_refl eq_refl eq_refl eq_refl).
  - vm_compute. reflexivity.
Defined.

(** ** The time marker *)

(** C9. [__init__] enables instrument time exactly when the first name is
    the string ["time (ms)"].  Then the name is dropped, one series fewer
    than names is plotted, and [data] is the device timestamp with the five
    channel values.  With any other first name every name is a series, and
    [data] is the advanced host clock with all six decoded values, the
    device timestamp first among them. *)
Theorem time_marker_selects_the_time_source {float64 : Type}
    first rest rx update_rate sensor_rate max_size write_to_file :
  exists (self : RealTimePlot) (st : Acquisition) (d : Display float64),
    __init__ (first :: rest) rx update_rate sensor_rate max_size write_to_file
      = Some (self, st, d)
    /\ (_time_from_serial self = true <-> first = "time (ms)"%string)
    /\ length (_datas_x d) = _num_of_data self
    /\ length (_datas_y d) = _num_of_data self
    /\ (first = "time (ms)"%string ->
        _num_of_data self = (length (first :: rest) - 1)%nat
        /\ forall native time pkt,
            data self time (decoded native pkt) =
            ((PyInt (Struct.from_bytes native (slice 0 4 pkt)),
              tl (decoded native pkt)), time))
    /\ (first <> "time (ms)"%string ->
        _num_of_data self = length (first :: rest)
        /\ forall native time pkt,
            data self time (decoded native pkt) =
            ((PyInt (time + update_rate),
              PyInt (Struct.from_bytes native (slice 0 4 pkt))
                :: tl (decoded native pkt)),
             time + update_rate)).
Proof.
  eexists _, _, _. split; [reflexivity |].
  cbn [_time_from_serial _num_of_data _datas_x _datas_y].
  unfold empty_arrays. rewrite !repeat_length.
  destruct (String.eqb_spec first "time (ms)") as [Heq | Hne];
    repeat split; intros;
    try reflexivity; try assumption; try contradiction; try discriminate.
  cbn [length]. lia.
Qed.

(** The spelling ["time"] is not the marker: six series, host time. *)
Lemma time_marker_selects_the_time_source_witness :
  exists (self : RealTimePlot) (st : Acquisition) (d : Display unit),
    __init__ ("time"%string :: tl channel_names) [] 50 10 250 true
      = Some (self, st, d)
    /\ _num_of_data self = 6%nat
    /\ fst (fst (data self 0 sample_values)) = PyInt 50.
Proof.
  destruct (@time_marker_selects_the_time_source unit "time"%string
              (tl channel_names) [] 50 10 250 true)
    as (self & st & d & Hinit & _ & _ & _ & _ & Hhost).
  destruct (Hhost ltac:(discriminate)) as [Hn Hdata].
  exists self, st, d. split; [exact Hinit |]. split; [exact Hn |].
  change sample_values with (decoded Struct.little sample_packet).
  rewrite Hdata. reflexivity.
Defined.

(** * Further properties of the code *)

(** ** The packet layout *)

Lemma byte_val_inj (a b : byte) : Struct.byte_val a = Struct.byte_val b -> a = b.
Proof.
  unfold Struct.byte_val. intros H. apply N2Z.inj in H.
  pose proof (Byte.of_to_N a) as Ha. rewrite H, Byte.of_to_N in Ha.
  congruence.
Qed.

Lemma le_uint_inj (a : list byte) :
  forall b, length a = length b -> le_uint a = le_uint b -> a = b.
Proof.
  induction a as [| x a IH]; intros [| y b] Hlen Heq; try discriminate.
  - reflexivity.
  - cbn [le_uint] in Heq. cbn [length] in Hlen.
    pose proof (byte_val_range x). pose proof (byte_val_range y).
    assert (Hxy : Struct.byte_val x = Struct.byte_val y) by lia.
    f_equal; [apply byte_val_inj; exact Hxy |].
    apply IH; lia.
Qed.

Lemma from_bytes_le_uint (native : Struct.byteorder) (bs : list byte) :
  Struct.from_bytes native bs =
  le_uint (match native with Struct.little => bs | Struct.big => rev bs end).
Proof.
  destruct native.
  - apply from_bytes_little.
  - rewrite <- from_bytes_little. cbn [Struct.from_bytes].
    rewrite rev_involutive. reflexivity.
Qed.

(** X2. Whatever the byte order of the host, the timestamp unpacked from a
    field lies in the unsigned 32-bit range and determines the four bytes
    of the field: no two fields unpack to the same timestamp. *)
Theorem unpack_I_range_and_injective native (a : list byte) (v : Z) :
  Struct.unpack_I native a = Some v ->
  0 <= v < 2 ^ 32
  /\ forall b, Struct.unpack_I native b = Some v -> b = a.
Proof.
  unfold Struct.unpack_I. intros Ha.
  destruct (Nat.eqb_spec (length a) 4) as [Hla |]; [| discriminate].
  injection Ha as <-. rewrite from_bytes_le_uint. split.
  - match goal with |- _ <= le_uint ?l < _ =>
      pose proof (le_uint_bound l) as Hb;
      replace (length l) with 4%nat in Hb
        by (destruct native; rewrite ?length_rev; congruence)
    end.
    exact Hb.
  - intros b Hb.
    destruct (Nat.eqb_spec (length b) 4) as [Hlb |]; [| discriminate].
    injection Hb as Hb. rewrite from_bytes_le_uint in Hb.
    destruct native.
    + apply le_uint_inj; congruence.
    + apply le_uint_inj in Hb; [| rewrite !length_rev; congruence].
      rewrite <- (rev_involutive b), Hb. apply rev_involutive.
Qed.

Lemma unpack_I_range_and_injective_witness :
  0 <= 1000 < 2 ^ 32
  /\ forall b, Struct.unpack_I Struct.big b = Some 3892510720 ->
               b = [xe8; x03; x00; x00]%byte.
Proof.
  split; [lia |].
  exact (proj2 (unpack_I_range_and_injective Struct.big
                  [xe8; x03; x00; x00]%byte 3892510720 eq_refl)).
Defined.

(** ** Exceptions of the reader loop *)

Lemma while_True_status native self fuel :
  forall st,
    full (_data_packet st) ->
    full (_data_packet (snd (while_True native fuel self st)))
    /\ (fst (while_True native fuel self st) = Running
        \/ fst (while_True native fuel self st) = Blocked
        \/ (fst (while_True native fuel self st) = Raised ZeroDivisionError
            /\ _sensor_rate self = 0)).
Proof.
  induction fuel as [| fuel IH]; intros st Hbuf.
  - cbn [while_True fst snd]. auto.
  - cbn [while_True].
    destruct (loop_body native self st) as [s1 st1] eqn:Hturn.
    destruct (loop_body_cases _ _ _ _ _ Hbuf Hturn)
      as (Hbuf1 & _ & _ & Hcase).
    destruct s1 as [| | e].
    + apply IH. exact Hbuf1.
    + cbn [fst snd]. auto.
    + cbn [fst snd]. split; [exact Hbuf1 |].
      destruct Hcase as [(_ & _ & _ & [H | H]) | (_ & _ & _ & _ & [H | [H H0]])];
        try discriminate.
      injection H as ->. auto.
Qed.

(** X3. From a state whose buffer has 24 bytes, as [__init__] makes it,
    the buffer keeps 24 bytes for ever, so [struct.unpack] never raises,
    and the only exception that can leave the loop is the
    [ZeroDivisionError] of [update_rate // sensor_rate], which needs
    [sensor_rate = 0]. *)
Theorem loop_raises_only_zero_division native self st fuel :
  full (_data_packet st) ->
  full (_data_packet (snd (__get_data native fuel self st)))
  /\ (fst (__get_data native fuel self st) = Running
      \/ fst (__get_data native fuel self st) = Blocked
      \/ (fst (__get_data native fuel self st) = Raised ZeroDivisionError
          /\ _sensor_rate self = 0)).
Proof.
  intros Hbuf. unfold __get_data. apply while_True_status. exact Hbuf.
Qed.

Lemma loop_raises_only_zero_division_witness :
  let r := __get_data Struct.little 7 (main_self 50 10)
                      (main_state (sample_packet ++ sample_packet)) in
  full (_data_packet (snd r))
  /\ (fst r = Running \/ fst r = Blocked
      \/ (fst r = Raised ZeroDivisionError /\ _sensor_rate (main_self 50 10) = 0)).
Proof.
  exact (loop_raises_only_zero_division Struct.little (main_self 50 10)
           (main_state (sample_packet ++ sample_packet)) 7 eq_refl).
Defined.

(** X4. With [sensor_rate = 0] and a full packet pending, the loop reads
    that packet, writes its row when logging is on, and then raises
    [ZeroDivisionError]: nothing is emitted and the bytes after the packet
    are never read. *)
Theorem zero_sensor_rate_raises_after_first_row native self st pkt rest fuel :
  _sensor_rate self = 0 ->
  full (_data_packet st) -> full pkt -> _ser st = pkt ++ rest ->
  (0 < fuel)%nat ->
  let st' := snd (__get_data native fuel self st) in
  fst (__get_data native fuel self st) = Raised ZeroDivisionError
  /\ csv_file st' = logged self (csv_file st) [decoded native pkt]
  /\ data_sent st' = data_sent st
  /\ _ser st' = rest.
Proof.
  intros Hzero Hbuf Hpkt Hser Hfuel.
  destruct fuel as [| fuel]; [lia |].
  unfold __get_data. cbn [while_True].
  rewrite (loop_body_zero_division native self
             (mkAcquisition 0 (_time st) (_data_packet st) (_ser st)
                            (csv_file st) (data_sent st))
             pkt rest Hbuf Hpkt Hser)
    by (unfold floordiv; rewrite Hzero; reflexivity).
  cbn [fst snd csv_file data_sent _ser]. auto.
Qed.

Lemma zero_sensor_rate_raises_after_first_row_witness :
  let r := __get_data Struct.little 3 (main_self 50 0)
                      (main_state (sample_packet ++ sample_packet)) in
  fst r = Raised ZeroDivisionError
  /\ length (rows_of (csv_file (snd r))) = 2%nat
  /\ data_sent (snd r) = []
  /\ _ser (snd r) = sample_packet.
Proof.
  intros r.
  destruct (zero_sensor_rate_raises_after_first_row Struct.little
              (main_self 50 0) (main_state (sample_packet ++ sample_packet))
              sample_packet sample_packet 3
              eq_refl eq_refl eq_refl eq_refl ltac:(lia))
    as (Hs & Hcsv & Hsent & Hser).
  subst r. rewrite Hs, Hcsv, Hsent, Hser. repeat split.
Defined.

(** ** More on the log *)

Lemma rows_of_logged self file raws :
  rows_of (logged self file raws) =
  rows_of file ++ (if _write_to_file self then map (map Num) raws else []).
Proof.
  unfold logged. destruct (_write_to_file self).
  - destruct file as [rows |].
    + rewrite fold_write_to_csv. reflexivity.
    + destruct raws as [| raw raws]; [reflexivity |].
      cbn [fold_left]. unfold __write_to_csv at 2.
      rewrite fold_write_to_csv. reflexivity.
  - rewrite app_nil_r. reflexivity.
Qed.

(** X5. The loop only ever appends to the log: at any moment the rows that
    were in the file when the loop started are still its first rows,
    unchanged, and with logging disabled the file, present or not, is left
    exactly as it was. *)
Theorem log_is_append_only native self st fuel :
  full (_data_packet st) ->
  let st' := snd (__get_data native fuel self st) in
  (exists new, rows_of (csv_file st') = rows_of (csv_file st) ++ new)
  /\ (_write_to_file self = false -> csv_file st' = csv_file st).
Proof.
  intros Hbuf st'. subst st'. unfold __get_data.
  match goal with
  | |- context [while_True native fuel self ?s] =>
    destruct (while_True native fuel self s) as [s1 st1] eqn:Hrun;
    destruct (while_True_log native self fuel s s1 st1 Hbuf Hrun)
      as (_ & _ & pkts & _ & _ & Hcsv)
  end.
  cbn [snd csv_file] in *. split.
  - eexists. rewrite Hcsv, rows_of_logged. reflexivity.
  - intros Hw. rewrite Hcsv. unfold logged. rewrite Hw. reflexivity.
Qed.

Lemma log_is_append_only_witness :
  let st := main_state (sample_packet ++ sample_packet) in
  exists new,
    rows_of (csv_file (snd (__get_data Struct.little 4 (main_self 50 10) st))) =
    rows_of (csv_file st) ++ new.
Proof.
  exact (proj1 (log_is_append_only Struct.little (main_self 50 10)
                  (main_state (sample_packet ++ sample_packet)) 4 eq_refl)).
Defined.

(** X6. With logging enabled, the file that [__init__] creates and the loop
    fills has a header of [1 + num_of_data] cells (["time"] and the plotted
    names) and, below it, rows of exactly six cells: header and rows have
    the same width only when five series are plotted. *)
Theorem csv_header_and_row_widths native {float64 : Type}
    data_set rx update_rate sensor_rate max_size
    (self : RealTimePlot) (st : Acquisition) (d : Display float64) fuel :
  __init__ data_set rx update_rate sensor_rate max_size true
    = Some (self, st, d) ->
  exists header rows,
    csv_file (snd (__get_data native fuel self st)) = Some (header :: rows)
    /\ length header = S (_num_of_data self)
    /\ Forall (fun r => length r = 6%nat) rows.
Proof.
  intros Hinit.
  destruct data_set as [| first rest]; [discriminate |].
  cbn [__init__] in Hinit. injection Hinit as <- <- _.
  unfold __get_data. cbn [_time _data_packet _ser csv_file data_sent].
  match goal with
  | |- context [while_True native fuel ?self ?s] =>
    destruct (while_True native fuel self s) as [s1 st1] eqn:Hrun;
    destruct (while_True_log native self fuel s s1 st1 eq_refl Hrun)
      as (_ & _ & pkts & _ & _ & Hcsv)
  end.
  cbn [snd csv_file] in *. unfold logged in Hcsv. cbn [_write_to_file] in Hcsv.
  rewrite fold_write_to_csv in Hcsv. cbn [app] in Hcsv.
  eexists _, _. split; [exact Hcsv |]. split.
  - cbn [_num_of_data map length]. rewrite length_map. reflexivity.
  - apply Forall_map, Forall_map, Forall_forall. intros pkt _. reflexivity.
Qed.

(** Six names and no marker: the header has seven cells, the rows six. *)
Lemma csv_header_and_row_widths_witness :
  exists (self : RealTimePlot) header rows,
    csv_file (snd (__get_data Struct.little 3 self
                              (main_state_of_six sample_packet)))
      = Some (header :: rows)
    /\ length header = 7%nat
    /\ Forall (fun r => length r = 6%nat) rows.
Proof.
  destruct (csv_header_and_row_widths Struct.little
              ("time"%string :: tl channel_names) sample_packet 50 50 250
              (mkRealTimePlot 50 50 false 6 250 true)
              (main_state_of_six sample_packet) (@empty_display unit 6) 3
              eq_refl) as (header & rows & Hcsv & Hh & Hr).
  exists (mkRealTimePlot 50 50 false 6 250 true), header, rows.
  split; [exact Hcsv |]. split; [exact Hh | exact Hr].
Defined.

(** ** More on the scheduler *)

Lemma gate_subseq {A : Type} (k : Z) (xs : list A) :
  forall c, subseq (fst (gate k c xs)) xs.
Proof.
  induction xs as [| x xs IH]; intros c; [constructor |].
  rewrite gate_cons. destruct (c + 1 =? k); cbn [app].
  - apply subseq_keep, IH.
  - apply subseq_skip, IH.
Qed.

(** X7. Whatever the rates, provided [sensor_rate] is not zero, what the
    loop emits while it reads a stream of packets is a subsequence of the
    tuples it built for them: tuples reach the display in decode order,
    none twice, none altered. *)
Theorem emitted_is_a_subsequence native self k pkts tail fuel st :
  floordiv (_update_rate self) (_sensor_rate self) = Some k ->
  Forall full pkts -> full (_data_packet st) ->
  _ser st = concat pkts ++ tail -> (length tail < 24)%nat ->
  (length pkts < fuel)%nat ->
  exists new,
    data_sent (snd (__get_data native fuel self st)) = data_sent st ++ new
    /\ subseq new (datas self (_time st) (map (decoded native) pkts)).
Proof.
  intros Hk Hfull Hbuf Hser Htail Hfuel.
  destruct (get_data_stream native self k Hk pkts fuel st tail Hfull Hbuf
              Hser Htail Hfuel) as (st' & Hrun & _ & _ & _ & Hsent).
  rewrite Hrun. cbn [snd]. eexists. split; [exact Hsent |].
  apply gate_subseq.
Qed.

Lemma emitted_is_a_subsequence_witness :
  exists new,
    data_sent (snd (__get_data Struct.little 4 (main_self 25 10)
                               (main_state (concat (repeat sample_packet 3)))))
      = [] ++ new
    /\ subseq new (datas (main_self 25 10) 0 (repeat sample_values 3)).
Proof.
  exact (emitted_is_a_subsequence Struct.little (main_self 25 10) 2
           (repeat sample_packet 3) [] 4
           (main_state (concat (repeat sample_packet 3)))
           eq_refl (full_repeat sample_packet 3 eq_refl) eq_refl
           eq_refl ltac:(cbn; lia) ltac:(cbn; lia)).
Defined.

(** X8. The host clock [_time] counts decoded packets, not emitted tuples:
    after [T] packets it has advanced by [T * update_rate] in
    host-synthesized time mode, whatever was forwarded, and it is never
    assigned in instrument time mode. *)
Theorem host_clock_counts_decoded_packets native self k pkts tail fuel st :
  floordiv (_update_rate self) (_sensor_rate self) = Some k ->
  Forall full pkts -> full (_data_packet st) ->
  _ser st = concat pkts ++ tail -> (length tail < 24)%nat ->
  (length pkts < fuel)%nat ->
  _time (snd (__get_data native fuel self st)) =
  if _time_from_serial self then _time st
  else _time st + Z.of_nat (length pkts) * _update_rate self.
Proof.
  intros Hk Hfull Hbuf Hser Htail Hfuel.
  destruct (get_data_stream native self k Hk pkts fuel st tail Hfull Hbuf
              Hser Htail Hfuel) as (st' & Hrun & _ & Htime & _).
  rewrite Hrun. cbn [snd]. exact Htime.
Qed.

Lemma host_clock_counts_decoded_packets_witness :
  _time (snd (__get_data Struct.little 8 (host_self 50 10)
                         (main_state (concat (repeat sample_packet 7))))) = 350.
Proof.
  exact (host_clock_counts_decoded_packets Struct.little (host_self 50 10) 5
           (repeat sample_packet 7) [] 8
           (main_state (concat (repeat sample_packet 7)))
           eq_refl (full_repeat sample_packet 7 eq_refl) eq_refl
           eq_refl ltac:(cbn; lia) ltac:(cbn; lia)).
Defined.

(** X9. Polling is free of effects: once every full packet of the stream
    has had its turn, further turns of the loop change nothing, so what is
    observed no longer depends on when it is observed. *)
Theorem polling_changes_nothing native self k pkts tail st :
  floordiv (_update_rate self) (_sensor_rate self) = Some k ->
  Forall full pkts -> full (_data_packet st) ->
  _ser st = concat pkts ++ tail -> (length tail < 24)%nat ->
  forall fuel fuel',
    (length pkts < fuel)%nat -> (length pkts < fuel')%nat ->
    __get_data native fuel self st = __get_data native fuel' self st.
Proof.
  intros Hk Hfull Hbuf Hser Htail. unfold __get_data.
  remember (mkAcquisition 0 (_time st) (_data_packet st) (_ser st)
                          (csv_file st) (data_sent st)) as s eqn:Hs.
  assert (Hbuf' : full (_data_packet s)) by (subst s; exact Hbuf).
  assert (Hser' : _ser s = concat pkts ++ tail) by (subst s; exact Hser).
  clear Hs Hbuf Hser st. revert s Hbuf' Hser'.
  induction pkts as [| pkt pkts IH]; intros s Hbuf Hser fuel fuel' Hf Hf'.
  - cbn [concat app] in Hser.
    destruct fuel as [| fuel]; [cbn in Hf; lia |].
    destruct fuel' as [| fuel']; [cbn in Hf'; lia |].
    destruct tail as [| b tail].
    + rewrite !(while_True_idle _ _ _ _ Hser). reflexivity.
    + cbn [while_True].
      rewrite loop_body_blocked
        by (try assumption; rewrite Hser; cbn [length] in *; lia).
      reflexivity.
  - destruct fuel as [| fuel]; [cbn in Hf; lia |].
    destruct fuel' as [| fuel']; [cbn in Hf'; lia |].
    inversion Hfull as [| ? ? Hpkt Hrest]; subst.
    cbn [concat] in Hser. rewrite <- app_assoc in Hser.
    cbn [while_True].
    rewrite (loop_body_packet native self s pkt _ k Hbuf Hpkt Hser Hk).
    apply IH; try assumption; try reflexivity; cbn [length] in *; lia.
Qed.

Lemma polling_changes_nothing_witness :
  __get_data Struct.little 3 (main_self 50 10)
             (main_state (sample_packet ++ sample_packet ++ [x01]%byte)) =
  __get_data Struct.little 40 (main_self 50 10)
             (main_state (sample_packet ++ sample_packet ++ [x01]%byte)).
Proof.
  exact (polling_changes_nothing Struct.little (main_self 50 10) 5
           [sample_packet; sample_packet] [x01]%byte
           (main_state (sample_packet ++ sample_packet ++ [x01]%byte))
           eq_refl ltac:(repeat constructor) eq_refl
           eq_refl ltac:(cbn; lia) 3%nat 40%nat ltac:(cbn; lia) ltac:(cbn; lia)).
Defined.

(** ** More on the display buffer *)

Lemma nth_repeat_lt {A : Type} (w d : A) (n i : nat) :
  (i < n)%nat -> nth i (repeat w n) d = w.
Proof.
  intros Hi. apply nth_error_nth.
  rewrite nth_error_repeat by exact Hi. reflexivity.
Qed.

Lemma nth_map_seq_lt {A : Type} (f : nat -> A) (d : A) (n i : nat) :
  (i < n)%nat -> nth i (map f (seq 0 n)) d = f i.
Proof.
  intros Hi. apply nth_error_nth.
  rewrite nth_error_map, nth_error_seq.
  replace (i <? n)%nat with true by (symmetry; apply Nat.ltb_lt; exact Hi).
  reflexivity.
Qed.

Lemma lastn_all {A : Type} (m : nat) (l : list A) :
  (length l <= m)%nat -> lastn m l = l.
Proof.
  intros H. unfold lastn.
  replace (length l - m)%nat with 0%nat by lia. reflexivity.
Qed.

(** X10. Until the window is full nothing is evicted: after [M <= max_size]
    tuples that each carry at least [n] values and a time within the float
    range, series [i] holds all [M] points, in arrival order. *)
Theorem display_keeps_everything_until_full {float64 : Type}
    (np_float64 : pyval -> float64) (truediv : pyval -> Z -> float64)
    (self : RealTimePlot) (n : nat) (pushes : list message) (i : nat) :
  Z.of_nat (length pushes) <= _max_size self ->
  Forall (fun m => (n <= length (snd m))%nat) pushes ->
  Forall in_float_range pushes ->
  (i < n)%nat ->
  let d := deliver np_float64 truediv self (empty_display n) pushes in
  nth i (_datas_x d) [] = series_x truediv pushes
  /\ nth i (_datas_y d) [] = series_y np_float64 i pushes.
Proof.
  intros HM Hlen Hrange Hi d. subst d.
  rewrite (deliver_window np_float64 truediv self n pushes
             ltac:(lia) ltac:(lia) Hlen Hrange).
  cbn [_datas_x _datas_y].
  rewrite nth_repeat_lt, nth_map_seq_lt by exact Hi.
  unfold message in *.
  rewrite !lastn_all
    by (unfold series_x, series_y; rewrite length_map; lia).
  split; reflexivity.
Qed.

Lemma display_keeps_everything_until_full_witness :
  let self := mkRealTimePlot 50 50 true 2 2 false in
  let pushes := [(PyInt 10, [PyInt 1; PyInt 2]); (PyInt 20, [PyInt 3; PyInt 4])] in
  let d := deliver (fun v => v) (fun t _ => t) self (empty_display 2) pushes in
  nth 0 (_datas_x d) [] = [PyInt 10; PyInt 20]
  /\ nth 0 (_datas_y d) [] = [PyInt 1; PyInt 3].
Proof.
  intros self pushes d.
  exact (display_keeps_everything_until_full (fun v => v) (fun t _ => t)
           self 2 pushes 0 ltac:(cbn; lia) ltac:(repeat constructor)
           ltac:(repeat constructor) ltac:(lia)).
Defined.

(** X11. A window capacity of zero or less shows nothing: with
    [max_size <= 0] and at least one series, every array of the display is
    empty after any sequence of delivered tuples whose times are within the
    float range, each point being evicted by the push that added it. *)
Theorem display_stays_empty_without_capacity {float64 : Type}
    (np_float64 : pyval -> float64) (truediv : pyval -> Z -> float64)
    (self : RealTimePlot) (n : nat) (sent : list message) :
  _max_size self <= 0 -> (1 <= n)%nat ->
  Forall in_float_range sent ->
  let d := deliver np_float64 truediv self (empty_display n) sent in
  Forall (fun a => a = []) (_datas_x d)
  /\ Forall (fun a => a = []) (_datas_y d).
Proof.
  intros Hmax Hn Hrange.
  assert (Hempty : Forall (fun a : list float64 => a = []) (empty_arrays n)).
  { unfold empty_arrays. apply Forall_forall. intros a Ha.
    apply repeat_spec in Ha. exact Ha. }
  apply deliver_keeps_arrays_empty; try assumption.
  cbn [empty_display _datas_y]. unfold empty_arrays.
  destruct n; [lia | discriminate].
Qed.

Lemma display_stays_empty_without_capacity_witness :
  let self := mkRealTimePlot 50 50 true 2 (-1) false in
  let d := deliver (fun v => v) (fun t _ => t) self (empty_display 2)
                   [(PyInt 10, [PyInt 1; PyInt 2]); (PyInt 20, [PyInt 3])] in
  Forall (fun a => a = []) (_datas_x d) /\ Forall (fun a => a = []) (_datas_y d).
Proof.
  intros self d.
  exact (display_stays_empty_without_capacity (fun v => v) (fun t _ => t)
           self 2 [(PyInt 10, [PyInt 1; PyInt 2]); (PyInt 20, [PyInt 3])]
           ltac:(cbn; lia) ltac:(lia) ltac:(repeat constructor)).
Defined.

Lemma display_x_arrays_are_identical_aux {float64 : Type}
    (np_float64 : pyval -> float64) (truediv : pyval -> Z -> float64)
    (self : RealTimePlot) (n : nat) (sent : list message) :
  exists times,
    _datas_x (deliver np_float64 truediv self (empty_display n) sent) =
    repeat times n.
Proof.
  destruct (deliver_x_arrays np_float64 truediv self sent n [] (empty_arrays n))
    as (w' & ys' & H).
  exists w'. unfold empty_display, empty_arrays in *. rewrite H. reflexivity.
Qed.

(** X12. The x arrays never differ from one another: after any sequence of
    delivered tuples of any shape, also when [__update] raised, there are
    still [n] of them and they all hold the same times. *)
Theorem display_x_arrays_are_identical {float64 : Type}
    (np_float64 : pyval -> float64) (truediv : pyval -> Z -> float64)
    (self : RealTimePlot) (n : nat) (sent : list message) :
  exists times,
    _datas_x (deliver np_float64 truediv self (empty_display n) sent) =
    repeat times n.
Proof.
  apply display_x_arrays_are_identical_aux.
Qed.

Lemma y_count_positive (sent : list message) :
  forall count : nat,
    (1 <= count)%nat ->
    (1 <= fold_left (fun count m =>
                       match snd m with
                       | [] => count
                       | _ :: _ => Nat.min count (length (snd m))
                       end)
                    sent count)%nat.
Proof.
  induction sent as [| dat sent IH]; intros count Hcount; [exact Hcount |].
  cbn [fold_left]. apply IH.
  destruct (snd dat) as [| v values]; [exact Hcount |].
  cbn [length]. lia.
Qed.

(** In a display that the slot has built from the empty one, a missing y
    array means there is no x array either. *)
Lemma no_series_at_all {float64 : Type}
    (np_float64 : pyval -> float64) (truediv : pyval -> Z -> float64)
    (self : RealTimePlot) (n : nat) (sent : list message) :
  _datas_y (deliver np_float64 truediv self (empty_display n) sent) = [] ->
  _datas_x (deliver np_float64 truediv self (empty_display n) sent) = [].
Proof.
  intros Hy.
  destruct (display_x_arrays_are_identical_aux np_float64 truediv self n sent)
    as (w & Hx).
  rewrite Hx.
  pose proof (deliver_y_count np_float64 truediv self sent (empty_display n))
    as Hcount.
  rewrite Hy in Hcount. cbn [length empty_display _datas_y] in Hcount.
  unfold empty_arrays in Hcount. rewrite repeat_length in Hcount.
  destruct n as [| n]; [reflexivity |].
  pose proof (y_count_positive sent (S n) ltac:(lia)). lia.
Qed.

(** X13. [__update] raises [IndexError] exactly when it is handed values
    while no y array exists and the division has not raised before, that is
    with no x array either or a time within the float range.  In a display
    built by the slot from the empty one, where a missing y array means no
    series at all, it raises [IndexError] exactly when it is handed values
    while no y array exists: this is what happens on every forwarded sample
    when [data_set] holds the marker alone. *)
Theorem update_raises_exactly_without_series {float64 : Type}
    (np_float64 : pyval -> float64) (truediv : pyval -> Z -> float64)
    (self : RealTimePlot) current_time values :
  (forall d : Display float64,
      snd (__update np_float64 truediv self d (current_time, values))
        = Some IndexError
      <-> values <> [] /\ _datas_y d = []
          /\ (_datas_x d = [] \/ true_divide_overflows current_time 1000 = false))
  /\ (forall (n : nat) (sent : list message),
         let d := deliver np_float64 truediv self (empty_display n) sent in
         snd (__update np_float64 truediv self d (current_time, values))
           = Some IndexError
         <-> values <> [] /\ _datas_y d = []).
Proof.
  assert (Hany : forall d : Display float64,
      snd (__update np_float64 truediv self d (current_time, values))
        = Some IndexError
      <-> values <> [] /\ _datas_y d = []
          /\ (_datas_x d = [] \/ true_divide_overflows current_time 1000 = false)).
  { intros d. unfold __update.
    destruct values as [| v values]; cbn [snd].
    - split; [discriminate | intros [H _]; contradiction].
    - destruct (_datas_x d) as [| x0 xs];
        [| destruct (true_divide_overflows current_time 1000)];
        cbn [snd];
        try (split; [discriminate
                    | intros (_ & _ & [H | H]); discriminate]);
        (destruct (_datas_y d) as [| y0 ys]; cbn [combine map snd];
         [ split; [intros _; repeat split; try discriminate; auto
                  | reflexivity]
         | destruct (_max_size self <? _); cbn [snd];
           (split; [discriminate | intros (_ & H & _); discriminate]) ]). }
  split; [exact Hany |].
  intros n sent d. rewrite Hany. subst d. split.
  - intros (Hv & Hy & _). split; assumption.
  - intros (Hv & Hy). repeat split; try assumption.
    left. apply (no_series_at_all np_float64 truediv self n sent Hy).
Qed.

Lemma update_raises_exactly_without_series_witness :
  exists (self : RealTimePlot) (st : Acquisition) (d : Display unit),
    __init__ ["time (ms)"%string] [] 50 50 250 false = Some (self, st, d)
    /\ snd (__update (fun _ => tt) (fun _ _ => tt) self d
                     (PyInt 1000, tl sample_values)) = Some IndexError.
Proof.
  eexists _, _, _. split; [reflexivity |].
  apply (proj2 (proj2 (update_raises_exactly_without_series
                         (fun _ => tt) (fun _ _ => tt) _
                         (PyInt 1000) (tl sample_values)) 0%nat [])).
  split; [discriminate | reflexivity].
Defined.

(** X14. Series are lost silently and for good: the number of x arrays
    stays [n], while the number of y arrays after a sequence of delivered
    tuples is [n] cut down to the shortest non-empty value list seen, since
    [zip] stops at the shorter of its arguments. *)
Theorem display_series_counts {float64 : Type}
    (np_float64 : pyval -> float64) (truediv : pyval -> Z -> float64)
    (self : RealTimePlot) (n : nat) (sent : list message) :
  let d := deliver np_float64 truediv self (empty_display n) sent in
  length (_datas_x d) = n
  /\ length (_datas_y d) =
     fold_left (fun count m =>
                  match snd m with
                  | [] => count
                  | _ :: _ => Nat.min count (length (snd m))
                  end)
               sent n.
Proof.
  intros d. subst d. split.
  - destruct (display_x_arrays_are_identical_aux np_float64 truediv self n sent)
      as (w & H).
    rewrite H. apply repeat_length.
  - rewrite deliver_y_count. cbn [empty_display _datas_y].
    unfold empty_arrays. rewrite repeat_length. reflexivity.
Qed.

(** ** From the bytes to the display *)

Lemma datas_serial self time raws :
  _time_from_serial self = true ->
  datas self time raws = map (fun raw => (hd (PyInt 0) raw, tl raw)) raws.
Proof.
  intros Hmode. revert time.
  induction raws as [| raw raws IH]; intros time; [reflexivity |].
  rewrite datas_cons. unfold data at 1 2. rewrite Hmode.
  cbn [fst snd map]. rewrite IH. reflexivity.
Qed.

Lemma every_kth_from_map {A B : Type} (f : A -> B) (k : Z) (xs : list A) :
  forall i, every_kth_from k i (map f xs) = map f (every_kth_from k i xs).
Proof.
  induction xs as [| x xs IH]; intros i; [reflexivity |].
  cbn [map every_kth_from]. rewrite IH.
  destruct (i mod k =? 0); reflexivity.
Qed.

Lemma every_kth_from_Forall {A : Type} (P : A -> Prop) (k : Z) (xs : list A) :
  Forall P xs -> forall i, Forall P (every_kth_from k i xs).
Proof.
  induction 1 as [| x xs Hx _ IH]; intros i; [constructor |].
  cbn [every_kth_from]. destruct (i mod k =? 0); [constructor |]; auto.
Qed.

Lemma from_bytes_range native (bs : list byte) :
  length bs = 4%nat -> 0 <= Struct.from_bytes native bs < 2 ^ 32.
Proof.
  intros Hlen. rewrite from_bytes_le_uint.
  match goal with |- _ <= le_uint ?l < _ =>
    pose proof (le_uint_bound l) as Hb;
    replace (length l) with 4%nat in Hb
      by (destruct native; rewrite ?length_rev; congruence)
  end.
  exact Hb.
Qed.

(** A 32-bit timestamp divided by 1000 is far from the float range. *)
Lemma timestamp_in_float_range (n : Z) :
  0 <= n < 2 ^ 32 -> true_divide_overflows (PyInt n) 1000 = false.
Proof.
  intros Hn. unfold true_divide_overflows. apply Z.leb_gt.
  rewrite (Z.abs_eq n) by lia.
  apply Z.lt_le_trans with (2 ^ 32); [lia |].
  vm_compute. discriminate.
Qed.

(** X15. The two threads composed, in instrument time mode with at most
    five series: after a stream of full packets has been read and every
    emitted tuple delivered, series [i] of the display holds, for the last
    [max_size] of the packets whose number is a multiple of
    [k = update_rate // sensor_rate], the device timestamp divided by 1000
    as x and channel [i] (the value unpacked at bytes [[4 + 4 i, 8 + 4 i)])
    as y. *)
Theorem display_shows_every_kth_packet {float64 : Type}
    (np_float64 : pyval -> float64) (truediv : pyval -> Z -> float64)
    native self k pkts fuel st (n i : nat) :
  _time_from_serial self = true ->
  floordiv (_update_rate self) (_sensor_rate self) = Some k -> 1 <= k ->
  0 <= _max_size self ->
  (i < n)%nat -> (n <= 5)%nat ->
  Forall full pkts -> full (_data_packet st) ->
  _ser st = concat pkts -> data_sent st = [] ->
  (length pkts < fuel)%nat ->
  let d := deliver np_float64 truediv self (empty_display n)
                   (data_sent (snd (__get_data native fuel self st))) in
  let shown := every_kth k pkts in
  let m := Z.to_nat (_max_size self) in
  nth i (_datas_x d) [] =
    lastn m (map (fun pkt =>
                    truediv (PyInt (Struct.from_bytes native (slice 0 4 pkt))) 1000)
                 shown)
  /\ nth i (_datas_y d) [] =
     lastn m (map (fun pkt =>
                     np_float64 (nth (S i) (decoded native pkt) (PyInt 0)))
                  shown).
Proof.
  intros Hmode Hk Hk1 Hmax Hi Hn Hfull Hbuf Hser Hnone Hfuel d shown m.
  destruct (get_data_stream native self k Hk pkts fuel st [] Hfull Hbuf
              ltac:(rewrite app_nil_r; exact Hser) ltac:(cbn; lia) Hfuel)
    as (st' & Hrun & _ & _ & _ & Hsent).
  subst d. rewrite Hrun. cbn [snd].
  rewrite Hsent, Hnone, gate_every_kth by exact Hk1. cbn [app].
  rewrite (datas_serial self _ _ Hmode), map_map.
  unfold every_kth. rewrite every_kth_from_map. fold (every_kth k pkts).
  fold shown.
  rewrite (deliver_window np_float64 truediv self n _ Hmax ltac:(lia)).
  - cbn [_datas_x _datas_y]. fold m.
    rewrite nth_repeat_lt, nth_map_seq_lt by exact Hi.
    unfold series_x, series_y. rewrite !map_map. split; reflexivity.
  - apply Forall_map, Forall_forall. intros pkt _. cbn [snd decoded tl length].
    exact Hn.
  - apply Forall_map.
    eapply Forall_impl; [| exact (every_kth_from_Forall full k pkts Hfull 1)].
    intros pkt Hpkt. unfold in_float_range. cbn [fst decoded hd].
    apply timestamp_in_float_range, from_bytes_range.
    apply length_slice. unfold full in Hpkt. lia.
Qed.

Lemma display_shows_every_kth_packet_witness :
  let d := deliver (fun v => v) (fun t _ => t) (main_self 20 10) (empty_display 5)
             (data_sent (snd (__get_data Struct.little 4 (main_self 20 10)
                                (main_state (concat (repeat sample_packet 3)))))) in
  nth 4 (_datas_x d) [] = [PyInt 1000]
  /\ nth 4 (_datas_y d) [] = [PyFloat (S754_finite false 13369344 (-19))].
Proof.
  intros d.
  destruct (display_shows_every_kth_packet (fun v => v) (fun t _ => t)
              Struct.little (main_self 20 10) 2 (repeat sample_packet 3) 4
              (main_state (concat (repeat sample_packet 3))) 5 4
              eq_refl eq_refl ltac:(lia) ltac:(cbn; lia) ltac:(lia) ltac:(lia)
              (full_repeat sample_packet 3 eq_refl) eq_refl eq_refl eq_refl
              ltac:(cbn; lia)) as [Hx Hy].
  split; (etransitivity; [eassumption | vm_compute; reflexivity]).
Defined.

(** ** The decoded channel values are binary32 numbers *)

Lemma digits2_pos_bounds (p : positive) :
  2 ^ (Zpos (digits2_pos p) - 1) <= Zpos p < 2 ^ Zpos (digits2_pos p).
Proof.
  induction p as [p IH | p IH |]; cbn [digits2_pos].
  - rewrite Pos2Z.inj_succ, Pos2Z.inj_xI.
    replace (Z.succ (Zpos (digits2_pos p)) - 1)
      with (Z.succ (Zpos (digits2_pos p) - 1)) by lia.
    rewrite !Z.pow_succ_r by lia.
    generalize dependent (2 ^ (Zpos (digits2_pos p) - 1)).
    generalize dependent (2 ^ Zpos (digits2_pos p)). intros; lia.
  - rewrite Pos2Z.inj_succ. change (Zpos p~0) with (2 * Zpos p).
    replace (Z.succ (Zpos (digits2_pos p)) - 1)
      with (Z.succ (Zpos (digits2_pos p) - 1)) by lia.
    rewrite !Z.pow_succ_r by lia.
    generalize dependent (2 ^ (Zpos (digits2_pos p) - 1)).
    generalize dependent (2 ^ Zpos (digits2_pos p)). intros; lia.
  - cbn. lia.
Qed.

Lemma digits2_pos_le (p : positive) (n : Z) :
  0 <= n -> Zpos p < 2 ^ n -> Zpos (digits2_pos p) <= n.
Proof.
  intros Hn Hp. pose proof (digits2_pos_bounds p) as [Hlo _].
  assert (H : 2 ^ (Zpos (digits2_pos p) - 1) < 2 ^ n) by lia.
  apply Z.pow_lt_mono_r_iff in H; lia.
Qed.

Lemma digits2_pos_gt (p : positive) (n : Z) :
  0 <= n -> 2 ^ n <= Zpos p -> n < Zpos (digits2_pos p).
Proof.
  intros Hn Hp. pose proof (digits2_pos_bounds p) as [_ Hhi].
  assert (H : 2 ^ n < 2 ^ Zpos (digits2_pos p)) by lia.
  apply Z.pow_lt_mono_r_iff in H; lia.
Qed.

Lemma binary32_of_bits_valid (w : Z) :
  valid_binary 24 128 (Struct.binary32_of_bits w) = true.
Proof.
  unfold Struct.binary32_of_bits.
  change 255 with (Z.ones 8). rewrite !Z.land_ones by lia.
  pose proof (Z.mod_pos_bound (Z.shiftr w 23) (2 ^ 8) ltac:(lia)) as He.
  pose proof (Z.mod_pos_bound w (2 ^ 23) ltac:(lia)) as Hm.
  set (e := Z.shiftr w 23 mod 2 ^ 8) in *.
  set (m := w mod 2 ^ 23) in *.
  destruct (Z.eqb_spec e 0) as [He0 | He0].
  - destruct m as [| p | p] eqn:Hmp; try reflexivity.
    cbn [valid_binary]. unfold bounded, canonical_mantissa, fexp, emin.
    pose proof (digits2_pos_le p 23 ltac:(lia) ltac:(lia)).
    apply andb_true_intro. split; [apply Z.eqb_eq | apply Z.leb_le]; lia.
  - destruct (Z.eqb_spec e (Z.ones 8)) as [He1 | He1].
    + destruct (m =? 0); reflexivity.
    + rewrite lor_hidden_bit by exact Hm.
      destruct (m + 2 ^ 23) as [| p | p] eqn:Hmp; try reflexivity.
      cbn [valid_binary]. unfold bounded, canonical_mantissa, fexp, emin.
      pose proof (digits2_pos_le p 24 ltac:(lia) ltac:(lia)).
      pose proof (digits2_pos_gt p 23 ltac:(lia) ltac:(lia)).
      change (Z.ones 8) with 255 in He1. change (2 ^ 8) with 256 in He.
      apply andb_true_intro. split; [apply Z.eqb_eq | apply Z.leb_le]; lia.
Qed.

(** X16. Every channel value unpacked from a full packet is a well-formed
    IEEE-754 binary32 number, on either byte order: a zero, an infinity, a
    NaN, or a finite number whose mantissa and exponent are canonical for
    24 bits of precision and a largest exponent of 128. *)
Theorem decoded_channels_are_binary32 native (pkt : list byte) :
  full pkt ->
  exists raw,
    raw_data native pkt = Some raw
    /\ forall f, In (PyFloat f) raw -> valid_binary 24 128 f = true.
Proof.
  intros Hpkt. exists (decoded native pkt).
  split; [apply raw_data_full; exact Hpkt |].
  intros f Hin. cbn [decoded In] in Hin.
  repeat (destruct Hin as [Hin | Hin];
          [try discriminate; injection Hin as <-; apply binary32_of_bits_valid |]).
  contradiction.
Qed.

Lemma decoded_channels_are_binary32_witness :
  exists raw,
    raw_data Struct.big sample_packet = Some raw
    /\ forall f, In (PyFloat f) raw -> valid_binary 24 128 f = true.
Proof.
  exact (decoded_channels_are_binary32 Struct.big sample_packet eq_refl).
Defined.
